(** * Farewell-card web application (src/teamcard/app.py)

    A shallow embedding of the Flask application: the request handlers
    [index], [admin] and [delete_card], the start-up resolution of the
    admin secret, and the greedy word wrap and line placement performed
    inside [index].

    Python values are modelled as follows.
    - [str] is a list of Unicode code points ([pystr]); [len], [strip],
      [split], [splitlines], [replace], [startswith] and [endswith] are
      written out below with CPython's whitespace and line-boundary tables.
    - Integers are [Z]; the floats of the layout code (text widths and
      coordinates) are the rational numbers [Q] they denote, and the one
      float operation of the source, the subtraction of line 143, is a
      parameter.
    - The file system is a finite map from canonical paths to nodes, and
      every handler passes it explicitly.
    - The third-party libraries (reportlab's font metrics, PyPDF2's reader,
      merger and writer, werkzeug's password hashing) are not part of the
      repository; they enter as type-class parameters. *)

From Stdlib Require Import ZArith QArith List Ascii String Lia Bool.
From stdpp Require Import base option list gmap sorting.

Local Open Scope Z_scope.

(* ================================================================== *)
(** * Part I: the embedding                                            *)
(* ================================================================== *)

(** ** Python strings *)

Module PyStr.

(** A character is a Unicode code point. *)
Definition char := N.
Definition pystr := list char.

(** Literals of the source, written as Rocq strings. *)
Fixpoint py (s : string) : pystr :=
  match s with
  | EmptyString => []
  | String a s' => N_of_ascii a :: py s'
  end.

Definition SPACE : char := 0x20%N.
Definition SLASH : char := 0x2F%N.
Definition UNDERSCORE : char := 0x5F%N.
Definition LF : char := 0x0A%N.
Definition CR : char := 0x0D%N.

(** [str.isspace] on one character (CPython's [_PyUnicode_IsWhitespace]). *)
Definition isspace (c : char) : bool :=
  ((0x09 <=? c) && (c <=? 0x0D) || (0x1C <=? c) && (c <=? 0x20)
   || (c =? 0x85) || (c =? 0xA0) || (c =? 0x1680)
   || (0x2000 <=? c) && (c <=? 0x200A)
   || (c =? 0x2028) || (c =? 0x2029) || (c =? 0x202F)
   || (c =? 0x205F) || (c =? 0x3000))%N.

(** Line boundaries recognised by [str.splitlines]
    (CPython's [_PyUnicode_IsLinebreak]). *)
Definition is_linebreak (c : char) : bool :=
  ((0x0A <=? c) && (c <=? 0x0D) || (0x1C <=? c) && (c <=? 0x1E)
   || (c =? 0x85) || (c =? 0x2028) || (c =? 0x2029))%N.

(** Truth value of a string: [if s:] holds for the non-empty ones. *)
Definition truthy (s : pystr) : bool :=
  match s with [] => false | _ :: _ => true end.

Fixpoint lstrip (s : pystr) : pystr :=
  match s with
  | [] => []
  | c :: s' => if isspace c then lstrip s' else s
  end.

(** Removal of the trailing characters that satisfy [drop]. *)
Fixpoint rstrip_chars (drop : char -> bool) (s : pystr) : pystr :=
  match s with
  | [] => []
  | c :: s' =>
      match rstrip_chars drop s' with
      | [] => if drop c then [] else [c]
      | r => c :: r
      end
  end.

Definition rstrip (s : pystr) : pystr := rstrip_chars isspace s.

(** [s.strip()] *)
Definition strip (s : pystr) : pystr := rstrip (lstrip s).

(** [len(s)] *)
Definition len (s : pystr) : Z := Z.of_nat (length s).

(** [s.split()]: maximal runs of non-whitespace characters.  [cur] is the
    word being read. *)
Fixpoint split_from (cur : pystr) (s : pystr) : list pystr :=
  match s with
  | [] => if truthy cur then [cur] else []
  | c :: s' =>
      if isspace c
      then (if truthy cur then cur :: split_from [] s' else split_from [] s')
      else split_from (cur ++ [c]) s'
  end.

Definition split (s : pystr) : list pystr := split_from [] s.

(** [s.splitlines()]: the text between line boundaries, the boundaries
    removed; a carriage return directly followed by a line feed is one
    boundary, and a final boundary does not open an empty last line.
    [after_cr] records that the previous character was a carriage
    return that already closed a line. *)
Fixpoint splitlines_from (after_cr : bool) (cur : pystr) (s : pystr)
  : list pystr :=
  match s with
  | [] => if truthy cur then [cur] else []
  | c :: s' =>
      if after_cr && (c =? LF)%N then splitlines_from false cur s'
      else if is_linebreak c
           then cur :: splitlines_from (c =? CR)%N [] s'
           else splitlines_from false (cur ++ [c]) s'
  end.

Definition splitlines (s : pystr) : list pystr :=
  splitlines_from false [] s.

(** [s.replace(old, new)] for one-character [old] and [new]. *)
Definition replace (old new : char) (s : pystr) : pystr :=
  map (fun c => if (c =? old)%N then new else c) s.

Fixpoint startswith (s prefix : pystr) {struct prefix} : bool :=
  match prefix, s with
  | [], _ => true
  | p :: prefix', c :: s' => (c =? p)%N && startswith s' prefix'
  | _ :: _, [] => false
  end.

Definition endswith (s suffix : pystr) : bool :=
  startswith (rev s) (rev suffix).

(** Equality test [a == b]. *)
Definition eqb (a b : pystr) : bool := bool_decide (a = b).

(** [os.fsencode(s)]: a path is handed to the operating system in UTF-8
    with the [surrogateescape] error handler.  A surrogate code point can
    be encoded only when it stands for an undecodable byte (U+DC80 to
    U+DCFF), and then it is that one byte. *)
Definition is_surrogate (c : char) : bool :=
  ((0xD800 <=? c) && (c <=? 0xDFFF))%N.
Definition is_escaped_byte (c : char) : bool :=
  ((0xDC80 <=? c) && (c <=? 0xDCFF))%N.
Definition encodable (c : char) : bool :=
  negb (is_surrogate c) || is_escaped_byte c.

(** The number of bytes of one character in that encoding. *)
Definition utf8_length (c : char) : Z :=
  if is_escaped_byte c then 1
  else if (c <? 0x80)%N then 1
  else if (c <? 0x800)%N then 2
  else if (c <? 0x10000)%N then 3
  else 4.

(** [len(os.fsencode(s))] for a string that can be encoded. *)
Definition byte_length (s : pystr) : Z :=
  fold_right Z.add 0 (map utf8_length s).

(** Ordering of strings, [a <= b]: lexicographic on code points. *)
Fixpoint leb (a b : pystr) : bool :=
  match a, b with
  | [], _ => true
  | _ :: _, [] => false
  | x :: a', y :: b' => (x <? y)%N || (x =? y)%N && leb a' b'
  end.

Definition le (a b : pystr) : Prop := leb a b = true.

#[global] Instance le_dec (a b : pystr) : Decision (le a b) :=
  decide (leb a b = true).

(** [sorted(l)] for a list of strings. *)
Definition sorted (l : list pystr) : list pystr := merge_sort le l.

End PyStr.
Import PyStr.

(** ** posixpath *)

Module PosixPath.

Definition sep : char := SLASH.

(** [os.path.join(a, b)] *)
Definition join (a b : pystr) : pystr :=
  if startswith b [sep] then b
  else if negb (truthy a) || endswith a [sep] then a ++ b
  else a ++ [sep] ++ b.

(** [p[:p.rfind(sep) + 1]]: the text up to and including the last
    separator, empty when there is none. *)
Fixpoint head_of (p : pystr) : pystr :=
  match p with
  | [] => []
  | c :: p' =>
      match head_of p' with
      | [] => if (c =? sep)%N then [c] else []
      | h => c :: h
      end
  end.

(** [os.path.dirname(p)] *)
Definition dirname (p : pystr) : pystr :=
  let head := head_of p in
  if truthy head && negb (forallb (fun c => (c =? sep)%N) head)
  then rstrip_chars (fun c => (c =? sep)%N) head
  else head.

(** The components of a path, [p.split(sep)]. *)
Fixpoint components_from (cur : pystr) (p : pystr) : list pystr :=
  match p with
  | [] => [cur]
  | c :: p' =>
      if (c =? sep)%N then cur :: components_from [] p'
      else components_from (cur ++ [c]) p'
  end.

Definition components (p : pystr) : list pystr := components_from [] p.

End PosixPath.

(** ** The file system

    Files and directories are stored under their canonical path, the list
    of names leading from the root; the root itself is always a directory.
    Path names are resolved component by component as POSIX prescribes
    (symbolic links are not modelled): every prefix that is walked through
    must be a directory, [.] and empty components stay in place and [..]
    steps to the parent.  A path of [PATH_MAX] bytes or more is refused as
    a whole, and a component of more than [NAME_MAX] bytes is refused when
    the walk comes to look it up. *)

Module FS.

Inductive node :=
| File (data : list N)
| Dir.

Inductive errno := ENOENT | ENOTDIR | EISDIR | ENAMETOOLONG.

Inductive result (A : Type) :=
| Ok (a : A)
| Error (e : errno).
Arguments Ok {A} a.
Arguments Error {A} e.

Definition key := list pystr.

Record t := mk {
  nodes : gmap (list pystr) node;
  cwd : list pystr
}.

Definition node_at (fs : t) (k : key) : option node :=
  match k with
  | [] => Some Dir
  | _ => nodes fs !! k
  end.

Definition is_dot (c : pystr) : bool :=
  PyStr.eqb c [] || PyStr.eqb c (py ".").
Definition is_dotdot (c : pystr) : bool := PyStr.eqb c (py "..").

(** The limits of Linux ([limits.h]); [PATH_MAX] counts the final NUL. *)
Definition NAME_MAX : Z := 255.
Definition PATH_MAX : Z := 4096.

(** Walk [comps] starting at the directory [at_]. *)
Fixpoint walk (fs : t) (at_ : key) (comps : list pystr) : result key :=
  match comps with
  | [] => Ok at_
  | c :: rest =>
      match node_at fs at_ with
      | None => Error ENOENT
      | Some (File _) => Error ENOTDIR
      | Some Dir =>
          if is_dot c then walk fs at_ rest
          else if is_dotdot c then walk fs (removelast at_) rest
          else if NAME_MAX <? byte_length c then Error ENAMETOOLONG
          else walk fs (at_ ++ [c]) rest
      end
  end.

Definition start_of (fs : t) (path : pystr) : key :=
  if startswith path [PosixPath.sep] then [] else cwd fs.

(** The canonical path a path name leads to, whether or not something
    is stored there. *)
Definition resolve (fs : t) (path : pystr) : result key :=
  if truthy path
  then
    if PATH_MAX <=? byte_length path then Error ENAMETOOLONG
    else walk fs (start_of fs path) (PosixPath.components path)
  else Error ENOENT.

Definition stat (fs : t) (path : pystr) : result node :=
  match resolve fs path with
  | Ok k =>
      match node_at fs k with
      | Some n => Ok n
      | None => Error ENOENT
      end
  | Error e => Error e
  end.

(** [os.path.exists(path)] *)
Definition exists_ (fs : t) (path : pystr) : bool :=
  match stat fs path with Ok _ => true | Error _ => false end.

(** [os.path.isfile(path)] *)
Definition isfile (fs : t) (path : pystr) : bool :=
  match stat fs path with Ok (File _) => true | _ => false end.

(** [os.remove(path)] *)
Definition remove (fs : t) (path : pystr) : result t :=
  match resolve fs path with
  | Ok k =>
      match node_at fs k with
      | Some (File _) => Ok (mk (delete k (nodes fs)) (cwd fs))
      | Some Dir => Error EISDIR
      | None => Error ENOENT
      end
  | Error e => Error e
  end.

(** The name of [k] inside directory [d], when [k] is an entry of [d]. *)
Definition entry_of (d k : key) : option pystr :=
  match last k with
  | Some name => if bool_decide (removelast k = d) then Some name else None
  | None => None
  end.

(** [os.listdir(path)], in the order the map enumerates its keys. *)
Definition listdir (fs : t) (path : pystr) : result (list pystr) :=
  match resolve fs path with
  | Ok d =>
      match node_at fs d with
      | Some Dir => Ok (omap (fun kv => entry_of d (fst kv)) (map_to_list (nodes fs)))
      | Some (File _) => Error ENOTDIR
      | None => Error ENOENT
      end
  | Error e => Error e
  end.

(** Reading a whole file, as [open(path, "rb").read()] does. *)
Definition read (fs : t) (path : pystr) : result (list N) :=
  match stat fs path with
  | Ok (File data) => Ok data
  | Ok Dir => Error EISDIR
  | Error e => Error e
  end.

(** The system call behind [open(path, "wb")], with the flags
    [O_WRONLY | O_CREAT | O_TRUNC]: the file is created, or emptied when it
    exists; the canonical path stands for the open handle. *)
Definition open_wb (fs : t) (path : pystr) : result (key * t) :=
  if truthy path then
    if PATH_MAX <=? byte_length path then Error ENAMETOOLONG
    else
    let comps := PosixPath.components path in
    match last comps with
    | None => Error ENOENT
    | Some name =>
        match walk fs (start_of fs path) (removelast comps) with
        | Error e => Error e
        | Ok d =>
            match node_at fs d with
            | None => Error ENOENT
            | Some (File _) => Error ENOTDIR
            | Some Dir =>
                if is_dot name || is_dotdot name then Error EISDIR
                else if NAME_MAX <? byte_length name then Error ENAMETOOLONG
                else
                  match node_at fs (d ++ [name]) with
                  | Some Dir => Error EISDIR
                  | _ => Ok (d ++ [name],
                             mk (<[d ++ [name] := File []]> (nodes fs)) (cwd fs))
                  end
            end
        end
    end
  else Error ENOENT.

(** Writing [data] through an open handle. *)
Definition write (fs : t) (handle : key) (data : list N) : t :=
  mk (<[handle := File data]> (nodes fs)) (cwd fs).

End FS.

(** ** Exceptions *)

(** An exception is raised by the operating system for a path, by the
    interpreter when a path cannot be handed to the operating system, or
    by one of the libraries; for the latter [fnf] tells whether it is an
    instance of [FileNotFoundError] and [text] is its [str(e)]. *)
Inductive exn :=
| OSError (e : FS.errno) (filename : pystr)
| UnicodeEncodeError (object : pystr) (start : nat)
    (* 'utf-8' codec can't encode character ... in position start *)
| ValueError (text : pystr)
| LibraryError (fnf : bool) (text : pystr).

(** [isinstance(e, FileNotFoundError)] *)
Definition is_FileNotFoundError (e : exn) : bool :=
  match e with
  | OSError FS.ENOENT _ => true
  | OSError _ _ => false
  | UnicodeEncodeError _ _ => false
  | ValueError _ => false
  | LibraryError fnf _ => fnf
  end.

(** The position of the first character of [s], counted from [i], that
    cannot be encoded for the operating system. *)
Fixpoint first_unencodable (i : nat) (s : pystr) : option nat :=
  match s with
  | [] => None
  | c :: s' => if encodable c then first_unencodable (S i) s' else Some i
  end.

(** What the interpreter does with a path before any system call
    ([PyUnicode_FSConverter]): it encodes the path, which fails at the
    first lone surrogate, and then refuses a path that holds a NUL. *)
Definition fs_converter (path : pystr) : option exn :=
  match first_unencodable 0 path with
  | Some i => Some (UnicodeEncodeError path i)
  | None =>
      if existsb (fun c => (c =? 0)%N) path
      then Some (ValueError (py "embedded null byte"))
      else None
  end.

Inductive outcome (A : Type) :=
| Return (a : A)
| Raise (e : exn).
Arguments Return {A} a.
Arguments Raise {A} e.

(** Statements that read or change the file system and may raise. *)
Definition io (A : Type) : Type := FS.t -> outcome A * FS.t.

Definition bind {A B} (m : io A) (k : A -> io B) : io B :=
  fun fs =>
    match m fs with
    | (Return a, fs') => k a fs'
    | (Raise e, fs') => (Raise e, fs')
    end.
Definition lift {A} (o : outcome A) : io A := fun fs => (o, fs).

Notation "'let!' x ':=' m 'in' k" := (bind m (fun x => k))
  (at level 10, x name, m at level 100, k at level 200).

(** [open(path, "wb")]: the conversion of the path, then the system
    call.  ([os.path.exists] and [os.path.isfile] answer [False] when the
    conversion fails; a file system stores no name with a NUL or a lone
    surrogate, so [FS.stat] finds nothing under such a path either.) *)
Definition open_ (path : pystr) : io FS.key :=
  fun fs =>
    match fs_converter path with
    | Some e => (Raise e, fs)
    | None =>
        match FS.open_wb fs path with
        | FS.Ok (f, fs') => (Return f, fs')
        | FS.Error e => (Raise (OSError e path), fs)
        end
    end.

(** ** The libraries the application calls *)

Inductive font := Helvetica | Helvetica_Bold.

(** reportlab's [c.stringWidth(text, fontName, fontSize)], the width of a
    text in points.  The result is a float, that is, a rational number. *)
Class FontMetrics := stringWidth : pystr -> font -> Z -> Q.

(** What reportlab computes for a standard font: the sum of the advance
    widths of the characters, which the font gives in thousandths of the
    font size, times [0.001 * fontSize].  This instance evaluates the
    products exactly. *)
Definition widths_sum (glyph_width : font -> char -> Z) (f : font)
    (text : pystr) : Z :=
  fold_right Z.add 0 (map (glyph_width f) text).

Definition afm_metrics (glyph_width : font -> char -> Z) : FontMetrics :=
  fun text fontName fontSize =>
    (inject_Z (widths_sum glyph_width fontName text)
     * (1 # 1000) * inject_Z fontSize)%Q.

(** Python's subtraction [a - b] of floats, IEEE 754 doubles: the result
    is the double nearest to the difference.  An [int] operand is
    converted to a float first.  Doubles are read as the rational numbers
    they denote. *)
Class FloatArith := float_sub : Q -> Q -> Q.

(** Text drawn on a canvas. *)
Record draw_op := mk_draw {
  op_x : Q;
  op_y : Q;
  op_text : pystr;
  op_font : font;
  op_size : Z;
  op_fill : pystr
}.

(** reportlab's [canvas.Canvas]: the state the application sets and the
    strings drawn so far. *)
Record canvas := mk_canvas {
  pagesize : Q * Q;
  fillColor : pystr;
  fontName : font;
  fontSize : Z;
  drawn : list draw_op
}.

(** PyPDF2, and reportlab's serialization of a canvas.  Every call may
    raise. *)
Class PdfLibrary := {
  page : Type;
  writer : Type;
  (** [PdfReader(...).pages[0]] on the bytes of a document *)
  first_page : list N -> outcome page;
  (** [page.mediabox.width], [page.mediabox.height] *)
  mediabox : page -> Q * Q;
  (** [c.save()] into the packet *)
  save : canvas -> outcome (list N);
  (** [template_page.merge_page(overlay_page)] *)
  merge_page : page -> page -> outcome page;
  (** [writer = PdfWriter()] followed by [writer.add_page(p)] *)
  add_page : page -> outcome writer;
  (** [writer.write(f)]: the bytes that reach the file, and the exception
      that ended the writing if it did not complete *)
  writer_write : writer -> list N * option exn
}.

(** werkzeug.security *)
Class PasswordHashing := {
  generate_password_hash : pystr -> pystr;
  check_password_hash : pystr -> pystr -> bool
}.

(** ** Layout of the message (the body of [index]) *)

Definition Qltb (x y : Q) : bool := (Qnum x * QDen y <? Qnum y * QDen x)%Z.

Section Layout.
Context `{FontMetrics} `{FloatArith}.

Definition message_left : Z := 230.
Definition message_right : Z := 670.
Definition message_top : Z := 700.
Definition message_bottom : Z := 220.
Definition max_width : Z := message_right - message_left.
Definition line_height : Z := 18.

(** One turn of [for word in words]; the state is [current_line] and
    [lines]. *)
Definition wrap_word (st : pystr * list pystr) (word : pystr)
  : pystr * list pystr :=
  let '(current_line, lines) := st in
  let test_line := current_line ++ word ++ py " " in
  if Qltb (stringWidth test_line Helvetica 12) (inject_Z max_width)
  then (test_line, lines)
  else (word ++ py " ",
        if truthy current_line then lines ++ [strip current_line] else lines).

(** One turn of [for paragraph in paragraphs]; the state is [lines]. *)
Definition wrap_paragraph (lines : list pystr) (paragraph : pystr)
  : list pystr :=
  let words := split paragraph in
  let '(current_line, lines) := fold_left wrap_word words ([], lines) in
  if truthy current_line then lines ++ [strip current_line] else lines.

(** [lines] after the paragraph loop. *)
Definition wrap_message (message : pystr) : list pystr :=
  let paragraphs := splitlines message in
  fold_left wrap_paragraph paragraphs [].

(** [int((message_top - message_bottom) / line_height)]; [int] cuts the
    quotient towards zero.  The quotient [480 / 18] lies well inside the
    interval from 26 to 27, and so does the float that stands for it. *)
Definition max_lines : Z := (message_top - message_bottom) ÷ line_height.

Definition setFillColor (c : canvas) (color : pystr) : canvas :=
  mk_canvas (pagesize c) color (fontName c) (fontSize c) (drawn c).

Definition setFont (c : canvas) (f : font) (size : Z) : canvas :=
  mk_canvas (pagesize c) (fillColor c) f size (drawn c).

Definition drawString (c : canvas) (x y : Q) (text : pystr) : canvas :=
  mk_canvas (pagesize c) (fillColor c) (fontName c) (fontSize c)
    (drawn c ++ [mk_draw x y text (fontName c) (fontSize c) (fillColor c)]).

(** Truth value and length of a list. *)
Definition truthy_list {A} (l : list A) : bool :=
  match l with [] => false | _ :: _ => true end.
Definition len_list {A} (l : list A) : Z := Z.of_nat (length l).

(** [lines[:n]] for a non-negative [n]. *)
Definition slice_to (n : Z) (lines : list pystr) : list pystr :=
  take (Z.to_nat n) lines.

(** [for i, line in enumerate(...)], from index [i] on; the loop is left
    at the first line whose [current_y] lies below [message_bottom]. *)
Fixpoint draw_lines (c : canvas) (i : Z) (lines : list pystr) : canvas :=
  match lines with
  | [] => c
  | line :: rest =>
      let current_y := message_top - i * line_height in
      if current_y <? message_bottom then c
      else draw_lines
             (drawString c (inject_Z message_left) (inject_Z current_y) line)
             (i + 1) rest
  end.

(** Lines 91-144: the overlay drawn for a submission on a page of size
    [page_size], starting from an empty canvas. *)
Definition draw_overlay (page_size : Q * Q) (name message : pystr) : canvas :=
  let c := mk_canvas page_size [] Helvetica 12 [] in
  let c := setFillColor c (py "#2C3E50") in
  let c := setFont c Helvetica 12 in
  let lines := wrap_message message in
  let c := draw_lines c 0 (slice_to max_lines lines) in
  let name_y :=
    if truthy_list lines
    then message_top - (len_list (slice_to max_lines lines) - 1) * line_height - 25
    else 200 in
  let name_text := py "- " ++ name in
  let c := setFont c Helvetica_Bold 14 in
  let name_width := stringWidth name_text Helvetica_Bold 14 in
  let name_x := float_sub (float_sub (inject_Z message_right) name_width) 10 in
  drawString c name_x (inject_Z name_y) name_text.

End Layout.

(** ** Requests and responses *)

Inductive http_method := GET | HEAD | POST.

(** [request.method] and [request.form]. *)
Record request := mk_request {
  method : http_method;
  form : list (pystr * pystr)
}.

(** [request.form.get(key, default)] *)
Definition form_get (req : request) (key default : pystr) : pystr :=
  match List.find (fun kv => PyStr.eqb (fst kv) key) (form req) with
  | Some kv => snd kv
  | None => default
  end.

(** The [error] texts of [index], each an f-string of the source with the
    values it interpolates. *)
Inductive index_error :=
| EnterBoth
    (* "Please enter both name and message." *)
| TooLong (limit : Z)
    (* f"Message is too long. Please limit it to {MAX_MESSAGE_CHARS} characters." *)
| TemplateNotFound (path : pystr)
    (* f"Error: Required PDF template '{TEMPLATE_PATH}' not found." *)
| GeneratingPDF (e : exn).
    (* f"Error generating PDF. Details: {str(e)}" *)

Inductive response :=
| render_index (error : option index_error) (cards : option (list pystr))
    (* render_template("index.html", error=..., cards=...) *)
| render_admin (error : option pystr) (cards : option (list pystr))
               (authorized : bool)
    (* render_template("admin.html", error=..., cards=..., authorized=...) *)
| redirect (endpoint : pystr)
    (* redirect(url_for(endpoint)) *)
| server_error (e : exn).
    (* an exception no handler catches *)

(** ** Module-level configuration *)

Definition CARDS_FOLDER : pystr := py "static/cards".
Definition TEMPLATE_PATH : pystr := py "Farewell_Card.pdf".

(** The two globals after the module body has run. *)
Record settings := mk_settings {
  ADMIN_PASSWORD : option pystr;
  ADMIN_PASSWORD_HASH : option pystr
}.

(** Truth value of [os.getenv(...)]: [None] and the empty string are false. *)
Definition truthy_opt (v : option pystr) : bool :=
  match v with
  | Some s => truthy s
  | None => false
  end.

Section Startup.
Context `{PasswordHashing}.

(** Lines 32-57: resolution of the admin secret from the environment. *)
Definition load_settings (getenv : pystr -> option pystr) : settings :=
  let ADMIN_PASSWORD := getenv (py "ADMIN_PASSWORD") in
  let ADMIN_PASSWORD_HASH := getenv (py "ADMIN_PASSWORD_HASH") in
  if truthy_opt ADMIN_PASSWORD_HASH
  then mk_settings ADMIN_PASSWORD ADMIN_PASSWORD_HASH
  else
    match ADMIN_PASSWORD with
    | Some plain =>
        if truthy plain then
          if startswith plain (py "pbkdf2:sha256:")
          then mk_settings None (Some plain)
          else mk_settings None (Some (generate_password_hash plain))
        else mk_settings ADMIN_PASSWORD None
    | None => mk_settings ADMIN_PASSWORD None
    end.

(** The admin login as the specification words it: the submitted password
    is verified against the stored hash. *)
Definition hashed_login (cfg : settings) (password : pystr) : bool :=
  match ADMIN_PASSWORD_HASH cfg with
  | Some h => check_password_hash h password
  | None => false
  end.

End Startup.

(** ** The request handlers *)

Definition os_outcome {A} (path : pystr) (r : FS.result A) : outcome A :=
  match r with
  | FS.Ok a => Return a
  | FS.Error e => Raise (OSError e path)
  end.

(** [sorted([f for f in os.listdir(CARDS_FOLDER) if f.endswith('.pdf')])] *)
Definition list_cards (fs : FS.t) : outcome (list pystr) :=
  match FS.listdir fs CARDS_FOLDER with
  | FS.Ok names =>
      Return (sorted (List.filter (fun f => endswith f (py ".pdf")) names))
  | FS.Error e => Raise (OSError e CARDS_FOLDER)
  end.

Definition MAX_MESSAGE_CHARS : Z := 2000.

(** [f"{name.replace(' ', '_').replace('/', '_')}_farewell_card.pdf"] *)
Definition output_filename_of (name : pystr) : pystr :=
  replace SLASH UNDERSCORE (replace SPACE UNDERSCORE name)
  ++ py "_farewell_card.pdf".

Section Handlers.
Context `{FontMetrics} `{PdfLibrary} `{FloatArith}.

(** Lines 83-154 of [index]: the writer that holds the template page with
    the overlay merged in.  Nothing is written here. *)
Definition merged_card (name message : pystr) : io writer :=
  let! template_data :=
    (fun fs => (os_outcome TEMPLATE_PATH (FS.read fs TEMPLATE_PATH), fs)) in
  let! template_page := lift (first_page template_data) in
  let page_size := mediabox template_page in
  let c := draw_overlay page_size name message in
  let! packet := lift (save c) in
  let! overlay_page := lift (first_page packet) in
  let! template_page := lift (merge_page template_page overlay_page) in
  lift (add_page template_page).

(** The body of the [try] statement of [index] (lines 83-157). *)
Definition write_card (name message output_path : pystr) : io unit :=
  let! writer := merged_card name message in
  let! f := open_ output_path in
  let '(data, failure) := writer_write writer in
  fun fs =>
    (match failure with
     | None => Return tt
     | Some e => Raise e
     end, FS.write fs f data).

(** [index()] *)
Definition index (req : request) (fs : FS.t) : response * FS.t :=
  match method req with
  | POST =>
      let name := strip (form_get req (py "name") []) in
      let message := strip (form_get req (py "message") []) in
      if negb (truthy name) || negb (truthy message)
      then (render_index (Some EnterBoth) None, fs)
      else if MAX_MESSAGE_CHARS <? len message
      then (render_index (Some (TooLong MAX_MESSAGE_CHARS)) None, fs)
      else
        let output_filename := output_filename_of name in
        let output_path := PosixPath.join CARDS_FOLDER output_filename in
        match write_card name message output_path fs with
        | (Return _, fs') => (redirect (py "index"), fs')
        | (Raise e, fs') =>
            if is_FileNotFoundError e
            then (render_index (Some (TemplateNotFound TEMPLATE_PATH)) None, fs')
            else (render_index (Some (GeneratingPDF e)) None, fs')
        end
  | _ =>
      match list_cards fs with
      | Return cards => (render_index None (Some cards), fs)
      | Raise e => (server_error e, fs)
      end
  end.

End Handlers.

(** [admin()]; the globals are passed as [cfg]. *)
Definition admin (cfg : settings) (req : request) (fs : FS.t) : response :=
  match method req with
  | POST =>
      let password := form_get req (py "password") [] in
      if negb (bool_decide (Some password = ADMIN_PASSWORD cfg))
      then render_admin (Some (py "Invalid password.")) None false
      else
        match list_cards fs with
        | Return cards => render_admin None (Some cards) true
        | Raise e => server_error e
        end
  | _ => render_admin None None false
  end.

(** [delete_card(filename)] *)
Definition delete_card (filename : pystr) (fs : FS.t) : response * FS.t :=
  let filepath := PosixPath.join CARDS_FOLDER filename in
  if FS.exists_ fs filepath && FS.isfile fs filepath
     && PyStr.eqb (PosixPath.dirname filepath) CARDS_FOLDER
  then
    match FS.remove fs filepath with
    | FS.Ok fs' => (redirect (py "admin"), fs')
    | FS.Error e => (server_error (OSError e filepath), fs)
    end
  else (redirect (py "admin"), fs).

(** ** Auxiliary notions of the proofs *)

(** A word as [split] returns it: not empty and free of whitespace. *)
Definition word_ok (w : pystr) : Prop :=
  w <> [] /\ Forall (fun c => isspace c = false) w.

(** The text [current_line] holds while the words [ws] are pending: each
    word followed by one space. *)
Definition line_of (ws : list pystr) : pystr :=
  concat (map (fun w => w ++ py " ") ws).

(** ** Sample data for the examples *)

(** A metrics table with two widths. *)
Definition sample_widths (f : font) (c : char) : Z :=
  if (c =? SPACE)%N then 278 else 556.

Definition sample_metrics : FontMetrics := afm_metrics sample_widths.

(** Subtraction without rounding, for the examples. *)
Definition sample_float : FloatArith := Qminus.

(** A stand-in for the PDF libraries: a page is the list of its bytes, a
    document without bytes cannot be read, merging appends. *)
Definition sample_pdf : PdfLibrary := {|
  page := list N;
  writer := list N;
  first_page data :=
    match data with
    | [] => Raise (LibraryError false (py "Cannot read an empty file"))
    | _ => Return data
    end;
  mediabox _ := (inject_Z 842, inject_Z 595);
  save c := Return (py "%PDF" ++ concat (map op_text (drawn c)));
  merge_page p q := Return (p ++ q);
  add_page p := Return p;
  writer_write w := (w, None)
|}.

(** A stand-in for werkzeug's hashing. *)
Definition sample_hashing : PasswordHashing := {|
  generate_password_hash p := py "pbkdf2:sha256:1$salt$" ++ rev p;
  check_password_hash h p :=
    PyStr.eqb h (py "pbkdf2:sha256:1$salt$" ++ rev p)
|}.

(** A working directory [/srv] with the template, the managed directory
    and one card in it. *)
Definition sample_fs : FS.t :=
  FS.mk
    (list_to_map
       [ ([py "srv"], FS.Dir);
         ([py "srv"; py "Farewell_Card.pdf"], FS.File (py "%PDF-template"));
         ([py "srv"; py "static"], FS.Dir);
         ([py "srv"; py "static"; py "cards"], FS.Dir);
         ([py "srv"; py "static"; py "cards"; py "Bob_farewell_card.pdf"],
          FS.File (py "%PDF-bob")) ])
    [py "srv"].

(** The same with an empty template file. *)
Definition sample_fs_empty_template : FS.t :=
  FS.mk (<[[py "srv"; py "Farewell_Card.pdf"] := FS.File []]> (FS.nodes sample_fs))
    (FS.cwd sample_fs).

(** The same without the template. *)
Definition sample_fs_no_template : FS.t :=
  FS.mk (delete [py "srv"; py "Farewell_Card.pdf"] (FS.nodes sample_fs))
    (FS.cwd sample_fs).

Definition sample_post (name message : string) : request :=
  mk_request POST [(py "name", py name); (py "message", py message)].

(** A message of two paragraphs, the first longer than one line. *)
Definition sample_message : pystr :=
  py "So long, and thanks for all the fish. It has been a pleasure to work with you, and the office will not be the same."
  ++ [CR; LF] ++ [CR; LF] ++ py "Keep in touch!".

(** An environment that sets [ADMIN_PASSWORD] only. *)
Definition sample_env (k : pystr) : option pystr :=
  if PyStr.eqb k (py "ADMIN_PASSWORD") then Some (py "admin123") else None.

(** ** Further notions for the properties of the wrap loop *)

(** [" ".join(words)] *)
Fixpoint join_space (ws : list pystr) : pystr :=
  match ws with
  | [] => []
  | [w] => w
  | w :: ws' => w ++ SPACE :: join_space ws'
  end.

(** The test of the word loop for the pending words [g]:
    [c.stringWidth(test_line, "Helvetica", 12) < max_width]. *)
Definition fits `{FontMetrics} (g : list pystr) : bool :=
  Qltb (stringWidth (line_of g) Helvetica 12) (inject_Z max_width).

(** The word loop read on lists of words: the words of the lines it
    produces, [pend] being the words of [current_line]. *)
Fixpoint wrap_groups `{FontMetrics} (pend : list pystr) (ws : list pystr)
  : list (list pystr) :=
  match ws with
  | [] => match pend with [] => [] | _ => [pend] end
  | w :: ws' =>
      if fits (pend ++ [w]) then wrap_groups (pend ++ [w]) ws'
      else match pend with
           | [] => wrap_groups [w] ws'
           | _ => pend :: wrap_groups [w] ws'
           end
  end.

(** ** Further sample data *)

(** A PDF library whose writer fails after four bytes. *)
Definition sample_pdf_failing : PdfLibrary := {|
  page := list N;
  writer := list N;
  first_page data :=
    match data with
    | [] => Raise (LibraryError false (py "Cannot read an empty file"))
    | _ => Return data
    end;
  mediabox _ := (inject_Z 842, inject_Z 595);
  save c := Return (py "%PDF" ++ concat (map op_text (drawn c)));
  merge_page p q := Return (p ++ q);
  add_page p := Return p;
  writer_write w := (take 4 w, Some (LibraryError false (py "disk full")))
|}.

(** The sample file system without the managed directory. *)
Definition sample_fs_no_cards : FS.t :=
  FS.mk
    (list_to_map
       [ ([py "srv"], FS.Dir);
         ([py "srv"; py "Farewell_Card.pdf"], FS.File (py "%PDF-template"));
         ([py "srv"; py "static"], FS.Dir) ])
    [py "srv"].

(** A message with a word wider than the box. *)
Definition sample_wide_message : pystr :=
  py "Goodbye " ++ replicate 70 (N_of_ascii "x") ++ py " and thanks".

(** A name of 250 characters, and a submission under that name. *)
Definition sample_long_name : pystr := replicate 250 (N_of_ascii "x").

Definition sample_long_post : request :=
  mk_request POST
    [(py "name", sample_long_name); (py "message", py "So long!")].

(** A submission whose name holds a NUL. *)
Definition sample_nul_post : request :=
  mk_request POST
    [(py "name", py "a" ++ [0%N] ++ py "b"); (py "message", py "So long!")].

(** The first paragraph of the sample message. *)
Definition sample_paragraph : pystr :=
  py "So long, and thanks for all the fish. It has been a pleasure to work with you, and the office will not be the same.".

(* ================================================================== *)
(** * Part II: properties                                              *)
(* ================================================================== *)

(** ** Strings *)

Example split_demo :
  split (py "  so long,   and thanks ")
  = [py "so"; py "long,"; py "and"; py "thanks"].
Proof. reflexivity. Qed.

Example splitlines_demo :
  splitlines (map N.of_nat [97; 13; 10; 10; 98; 13; 99; 10]%nat)
  = [py "a"; []; py "b"; py "c"].
Proof. reflexivity. Qed.

Example strip_demo : strip (py "  a b  ") = py "a b".
Proof. reflexivity. Qed.

Lemma split_from_nonspace w : forall cur s,
  Forall (fun c => isspace c = false) w ->
  split_from cur (w ++ s) = split_from (cur ++ w) s.
Proof.
  induction w as [|c w IH]; intros cur s Hw; simpl.
  - by rewrite app_nil_r.
  - inversion Hw as [|? ? Hc Hw']; subst. rewrite Hc, IH by done.
    by rewrite <- app_assoc.
Qed.

Lemma truthy_true (s : pystr) : truthy s = true <-> s <> [].
Proof. destruct s; simpl; split; intros; congruence. Qed.

Lemma truthy_false (s : pystr) : truthy s = false <-> s = [].
Proof. destruct s; simpl; split; intros; congruence. Qed.

Lemma split_from_word w c s :
  word_ok w -> isspace c = true ->
  split_from [] (w ++ c :: s) = w :: split_from [] s.
Proof.
  intros [Hne Hw] Hc. rewrite split_from_nonspace by done. simpl.
  rewrite Hc. by apply truthy_true in Hne as ->.
Qed.

Lemma line_of_cons w ws : line_of (w :: ws) = w ++ SPACE :: line_of ws.
Proof. unfold line_of. simpl. by rewrite <- app_assoc. Qed.

Lemma line_of_snoc ws w : line_of (ws ++ [w]) = line_of ws ++ w ++ [SPACE].
Proof. unfold line_of. rewrite map_app, concat_app. simpl. by rewrite app_nil_r. Qed.

Lemma split_line_of ws : Forall word_ok ws -> split (line_of ws) = ws.
Proof.
  induction 1 as [|w ws Hw _ IH]; [done|]. rewrite line_of_cons.
  unfold split in *. rewrite split_from_word by done. by rewrite IH.
Qed.

Lemma split_from_ok s : forall cur,
  Forall (fun c => isspace c = false) cur ->
  Forall word_ok (split_from cur s).
Proof.
  induction s as [|c s IH]; intros cur Hcur; simpl.
  - destruct (truthy cur) eqn:E; [|constructor].
    apply truthy_true in E. repeat constructor; done.
  - destruct (isspace c) eqn:Hc.
    + destruct (truthy cur) eqn:E.
      * apply truthy_true in E. constructor; [by split|]. by apply IH.
      * by apply IH.
    + apply IH. apply Forall_app; split; [done|]. by repeat constructor.
Qed.

Lemma split_ok s : Forall word_ok (split s).
Proof. apply split_from_ok. constructor. Qed.

Lemma split_lstrip s : split (lstrip s) = split s.
Proof.
  unfold split. induction s as [|c s IH]; simpl; [done|].
  destruct (isspace c) eqn:Hc; [done|]. simpl. by rewrite Hc.
Qed.

Lemma split_from_rstrip s : forall cur,
  split_from cur (rstrip s) = split_from cur s.
Proof.
  unfold rstrip. induction s as [|c s IH]; intros cur; simpl; [done|].
  destruct (rstrip_chars isspace s) as [|r rs] eqn:E.
  - pose proof (IH []) as H0. pose proof (IH (cur ++ [c])) as H1.
    simpl in H0, H1. destruct (isspace c) eqn:Hc; simpl.
    + rewrite <- H0. by destruct (truthy cur).
    + rewrite Hc, <- H1. by destruct cur.
  - simpl. destruct (isspace c) eqn:Hc.
    + rewrite <- (IH []). done.
    + rewrite <- (IH (cur ++ [c])). done.
Qed.

Lemma split_strip s : split (strip s) = split s.
Proof. unfold strip, split. by rewrite split_from_rstrip, split_lstrip. Qed.

(** ** The wrap loop keeps the words *)

Section WrapWords.
Context `{FontMetrics}.

Lemma line_of_nil pend : Forall word_ok pend -> line_of pend = [] -> pend = [].
Proof.
  destruct 1 as [|w ws [Hne _] _]; [done|]. rewrite line_of_cons.
  destruct w; [done|]. discriminate.
Qed.

(** One word more: the words read so far are those of the finished
    lines followed by the pending ones. *)
Lemma wrap_word_words pend w :
  Forall word_ok pend -> word_ok w ->
  exists pend' produced,
    Forall word_ok pend'
    /\ concat (map split produced) ++ pend' = pend ++ [w]
    /\ forall lines,
         wrap_word (line_of pend, lines) w = (line_of pend', lines ++ produced).
Proof.
  intros Hpend Hw. unfold wrap_word.
  replace (line_of pend ++ w ++ py " ") with (line_of (pend ++ [w]))
    by apply line_of_snoc.
  destruct (Qltb _ _).
  - exists (pend ++ [w]), []. split_and!.
    + apply Forall_app; split; [done|]. by constructor.
    + done.
    + intros lines. by rewrite app_nil_r.
  - destruct (truthy (line_of pend)) eqn:E.
    + exists [w], [strip (line_of pend)]. split_and!.
      * by constructor.
      * simpl. by rewrite split_strip, split_line_of, app_nil_r.
      * intros lines. by rewrite (line_of_cons w []).
    + apply truthy_false, line_of_nil in E; [|done]. subst pend.
      exists [w], []. split_and!.
      * by constructor.
      * done.
      * intros lines. by rewrite (line_of_cons w []), app_nil_r.
Qed.

Lemma wrap_words_fold ws : forall pend,
  Forall word_ok pend -> Forall word_ok ws ->
  exists pend' produced,
    Forall word_ok pend'
    /\ concat (map split produced) ++ pend' = pend ++ ws
    /\ forall lines,
         fold_left wrap_word ws (line_of pend, lines)
         = (line_of pend', lines ++ produced).
Proof.
  induction ws as [|w ws IH]; intros pend Hpend Hws.
  - exists pend, []. split_and!; [done|by rewrite app_nil_r|].
    intros lines. by rewrite app_nil_r.
  - inversion Hws as [|? ? Hw Hws']; subst.
    destruct (wrap_word_words pend w Hpend Hw) as (p1 & l1 & Hp1 & Hcat1 & Hstep).
    destruct (IH p1 Hp1 Hws') as (p2 & l2 & Hp2 & Hcat2 & Hfold).
    exists p2, (l1 ++ l2). split_and!; [done| |].
    + rewrite map_app, concat_app, <- app_assoc, Hcat2, app_assoc, Hcat1.
      by rewrite <- app_assoc.
    + intros lines. cbn [fold_left]. rewrite Hstep, Hfold. by rewrite app_assoc.
Qed.

(** What one paragraph adds to [lines] does not depend on [lines], and
    its words are the paragraph's. *)
Lemma wrap_paragraph_words paragraph :
  exists produced,
    concat (map split produced) = split paragraph
    /\ forall lines, wrap_paragraph lines paragraph = lines ++ produced.
Proof.
  destruct (wrap_words_fold (split paragraph) [])
    as (pend & l1 & Hpend & Hcat & Hfold); [constructor|apply split_ok|].
  simpl in Hcat. unfold wrap_paragraph.
  destruct (truthy (line_of pend)) eqn:E.
  - exists (l1 ++ [strip (line_of pend)]). split.
    + rewrite map_app, concat_app. simpl.
      by rewrite split_strip, split_line_of, app_nil_r.
    + intros lines. change (@nil char) with (line_of []).
      rewrite Hfold, E. by rewrite app_assoc.
  - apply truthy_false in E as E'. apply line_of_nil in E'; [|done]. subst pend.
    exists l1. split; [by rewrite app_nil_r in Hcat|].
    intros lines. change (@nil char) with (line_of []) at 1.
    rewrite Hfold. done.
Qed.

Lemma wrap_paragraph_app lines paragraph :
  wrap_paragraph lines paragraph = lines ++ wrap_paragraph [] paragraph.
Proof.
  destruct (wrap_paragraph_words paragraph) as (produced & _ & Heq).
  by rewrite (Heq lines), (Heq []).
Qed.

Lemma wrap_paragraph_no_words lines paragraph :
  split paragraph = [] -> wrap_paragraph lines paragraph = lines.
Proof. intros E. unfold wrap_paragraph. by rewrite E. Qed.

Lemma wrap_paragraphs_fold paragraphs : forall lines,
  fold_left wrap_paragraph paragraphs lines
  = lines ++ concat (map (wrap_paragraph []) paragraphs).
Proof.
  induction paragraphs as [|p ps IH]; intros lines; simpl.
  - by rewrite app_nil_r.
  - rewrite IH, (wrap_paragraph_app lines p). by rewrite <- app_assoc.
Qed.

(** C2: the lines the wrap loop adds for a paragraph, split into words
    and concatenated in order, give back [paragraph.split()]. *)
Theorem wrap_preserves_words lines paragraph :
  exists produced,
    wrap_paragraph lines paragraph = lines ++ produced
    /\ concat (map split produced) = split paragraph.
Proof.
  destruct (wrap_paragraph_words paragraph) as (produced & Hcat & Heq).
  exists produced. by rewrite Heq.
Qed.

(** Paragraphs and line-break characters. *)
Lemma wrap_message_concat message :
  wrap_message message
  = concat (map (wrap_paragraph []) (splitlines message)).
Proof. unfold wrap_message. by rewrite wrap_paragraphs_fold. Qed.

Lemma wrap_paragraph_empty : wrap_paragraph [] [] = [].
Proof. reflexivity. Qed.

(** Whether a carriage return came just before matters for the paragraphs
    (an empty one more or less), not for the lines. *)
Lemma wrap_after_cr (s : pystr) :
  concat (map (wrap_paragraph []) (splitlines_from true [] s))
  = concat (map (wrap_paragraph []) (splitlines_from false [] s)).
Proof.
  destruct s as [|c s]; [done|]. cbn [splitlines_from andb].
  destruct (c =? LF)%N eqn:Hc; [|done].
  apply N.eqb_eq in Hc as ->.
  change (is_linebreak LF) with true. change (LF =? CR)%N with false.
  cbv iota. cbn [map concat]. by rewrite wrap_paragraph_empty.
Qed.

Lemma wrap_splitlines_from_break (c : char) (after : pystr) :
  is_linebreak c = true ->
  forall before after_cr cur,
    (after_cr = true -> cur = []) ->
    concat (map (wrap_paragraph [])
              (splitlines_from after_cr cur (before ++ c :: after)))
    = concat (map (wrap_paragraph []) (splitlines_from after_cr cur before))
      ++ concat (map (wrap_paragraph []) (splitlines after)).
Proof.
  intros Hc. induction before as [|b before IH]; intros after_cr cur Hcur.
  - cbn [app splitlines_from].
    destruct (after_cr && (c =? LF)%N) eqn:Hskip.
    + apply andb_prop in Hskip as [-> _]. by rewrite (Hcur eq_refl).
    + rewrite Hc. cbn [map concat]. unfold splitlines.
      assert (concat (map (wrap_paragraph [])
                        (splitlines_from (c =? CR)%N [] after))
              = concat (map (wrap_paragraph []) (splitlines_from false [] after)))
        as -> by (destruct (c =? CR)%N; [apply wrap_after_cr|done]).
      destruct cur as [|x cur]; [by rewrite wrap_paragraph_empty|].
      cbn [truthy map concat]. by rewrite app_nil_r.
  - cbn [app splitlines_from].
    destruct (after_cr && (b =? LF)%N); [by apply IH|].
    destruct (is_linebreak b).
    + cbn [map concat]. rewrite IH by done. by rewrite app_assoc.
    + by apply IH.
Qed.

Lemma splitlines_from_one (s : pystr) : forall cur,
  Forall (fun c => is_linebreak c = false) s ->
  splitlines_from false cur s = if truthy (cur ++ s) then [cur ++ s] else [].
Proof.
  induction s as [|c s IH]; intros cur Hs.
  - by rewrite app_nil_r.
  - inversion Hs as [|? ? Hc Hs']; subst. cbn [splitlines_from andb].
    rewrite Hc, IH by done. by rewrite <- app_assoc.
Qed.

Lemma splitlines_from_free (s : pystr) : forall after_cr cur,
  Forall (fun c => is_linebreak c = false) cur ->
  Forall (Forall (fun c => is_linebreak c = false))
    (splitlines_from after_cr cur s).
Proof.
  induction s as [|c s IH]; intros after_cr cur Hcur; cbn [splitlines_from].
  - destruct (truthy cur); by repeat constructor.
  - destruct (after_cr && (c =? LF)%N); [by apply IH|].
    destruct (is_linebreak c) eqn:Hc.
    + constructor; [done|]. by apply IH.
    + apply IH. apply Forall_app. by split; [|repeat constructor].
Qed.

(** C7: the wrapped lines of a message fall into consecutive groups, one
    per paragraph of [message.splitlines()] and in the same order; each
    group is the wrap of its paragraph alone and carries exactly that
    paragraph's words, and a paragraph without words gives an empty
    group.  The paragraphs are the stretches of the message between its
    line-break characters: no paragraph holds a line-break character;
    a line-break character anywhere in the message keeps apart the lines
    of what stands before it and the lines of what stands after it, each
    part wrapped as a message of its own; and a message without
    line-break character is wrapped as one paragraph. *)
Theorem wrap_paragraphs_apart message :
  (exists groups,
     wrap_message message = concat groups
     /\ Forall2
          (fun paragraph group =>
             group = wrap_paragraph [] paragraph
             /\ concat (map split group) = split paragraph
             /\ (split paragraph = [] -> group = []))
          (splitlines message) groups)
  /\ Forall (Forall (fun c => is_linebreak c = false)) (splitlines message)
  /\ (forall before c after,
        message = before ++ c :: after -> is_linebreak c = true ->
        wrap_message message = wrap_message before ++ wrap_message after)
  /\ (Forall (fun c => is_linebreak c = false) message ->
        wrap_message message = wrap_paragraph [] message).
Proof.
  split_and!.
  - exists (map (wrap_paragraph []) (splitlines message)). split.
    + unfold wrap_message. by rewrite wrap_paragraphs_fold.
    + apply Forall2_fmap_r, Forall_Forall2_diag, Forall_forall.
      intros paragraph _. split_and!; [done| |].
      * destruct (wrap_paragraph_words paragraph) as (produced & Hcat & Heq).
        by rewrite (Heq []).
      * apply wrap_paragraph_no_words.
  - by apply splitlines_from_free.
  - intros before c after -> Hc. rewrite !wrap_message_concat.
    by apply wrap_splitlines_from_break.
  - intros Hfree. rewrite wrap_message_concat. unfold splitlines.
    rewrite splitlines_from_one by done. cbn [app].
    destruct message; [done|]. cbn [truthy map concat]. by rewrite app_nil_r.
Qed.

End WrapWords.

(** ** The wrap loop keeps the lines narrow *)

Lemma Qltb_lt x y : Qltb x y = true <-> (x < y)%Q.
Proof. unfold Qltb, Qlt. apply Z.ltb_lt. Qed.

Lemma lstrip_line_of pend :
  Forall word_ok pend -> lstrip (line_of pend) = line_of pend.
Proof.
  destruct 1 as [|w ws [Hne Hw] _]; [done|]. rewrite line_of_cons.
  destruct Hw as [|c w Hc _]; [done|]. simpl. by rewrite Hc.
Qed.

Lemma rstrip_chars_snoc_keep drop s c :
  drop c = false -> rstrip_chars drop (s ++ [c]) = s ++ [c].
Proof.
  intros Hc. induction s as [|a s IH]; simpl.
  - by rewrite Hc.
  - rewrite IH. by destruct s.
Qed.

Lemma rstrip_chars_snoc_drop drop s c :
  drop c = true -> rstrip_chars drop (s ++ [c]) = rstrip_chars drop s.
Proof.
  intros Hc. induction s as [|a s IH]; simpl.
  - by rewrite Hc.
  - by rewrite IH.
Qed.

(** A pending line is its stripped text followed by the one space that
    the loop appended last. *)
Lemma line_of_strip pend :
  Forall word_ok pend -> pend <> [] ->
  line_of pend = strip (line_of pend) ++ [SPACE].
Proof.
  intros Hpend Hne. unfold strip. rewrite lstrip_line_of by done.
  destruct pend as [|w0 ws0 _] using rev_ind; [done|].
  apply Forall_app in Hpend as [_ Hw]. inversion Hw as [|? ? [Hw1 Hw2] _]; subst.
  rewrite line_of_snoc.
  destruct w0 as [|c w _] using rev_ind; [done|].
  apply Forall_app in Hw2 as [_ Hc]. inversion Hc as [|? ? Hc' _]; subst.
  unfold rstrip. rewrite !app_assoc.
  rewrite rstrip_chars_snoc_drop by done.
  by rewrite rstrip_chars_snoc_keep.
Qed.

(** The exact metrics never make a text narrower when a space is appended,
    provided the space has no negative width. *)
Lemma widths_sum_app glyph_width f a b :
  widths_sum glyph_width f (a ++ b)
  = widths_sum glyph_width f a + widths_sum glyph_width f b.
Proof.
  unfold widths_sum. induction a as [|c a IH]; simpl; [done|]. rewrite IH. lia.
Qed.

Lemma afm_space_widens glyph_width f size text :
  0 <= size -> 0 <= glyph_width f SPACE ->
  (stringWidth (FontMetrics := afm_metrics glyph_width) text f size
   <= stringWidth (FontMetrics := afm_metrics glyph_width) (text ++ py " ")
        f size)%Q.
Proof.
  intros Hsize Hspace. unfold stringWidth, afm_metrics.
  apply Qmult_le_compat_r; [|unfold Qle; simpl; lia].
  apply Qmult_le_compat_r; [|done]. rewrite <- Zle_Qle.
  rewrite widths_sum_app.
  change (widths_sum glyph_width f (py " ")) with (glyph_width f SPACE + 0).
  lia.
Qed.

Section WrapWidths.
Context `{FontMetrics}.

(** The test of the loop, as a proposition. *)
Let narrow (text : pystr) : Prop :=
  (stringWidth text Helvetica 12 < inject_Z max_width)%Q.

(** A text followed by a space is at least as wide as the text. *)
Hypothesis space_widens : forall text,
  (stringWidth text Helvetica 12
   <= stringWidth (text ++ py " ") Helvetica 12)%Q.

Lemma strip_narrow pend :
  Forall word_ok pend -> pend <> [] ->
  narrow (line_of pend) -> narrow (strip (line_of pend)).
Proof.
  intros Hpend Hne Hn. unfold narrow in *.
  eapply Qle_lt_trans; [|exact Hn].
  rewrite (line_of_strip pend) at 2 by done. apply space_widens.
Qed.

(** The invariant of the word loop: the pending line is empty or narrow,
    and so is every finished line. *)
Lemma wrap_word_narrow pend lines w :
  Forall word_ok pend -> word_ok w ->
  narrow (w ++ py " ") ->
  (pend = [] \/ narrow (line_of pend)) ->
  Forall narrow lines ->
  exists pend' lines',
    wrap_word (line_of pend, lines) w = (line_of pend', lines')
    /\ Forall word_ok pend'
    /\ (pend' = [] \/ narrow (line_of pend'))
    /\ Forall narrow lines'.
Proof.
  intros Hpend Hw Hword Hcur Hlines. unfold wrap_word.
  replace (line_of pend ++ w ++ py " ") with (line_of (pend ++ [w]))
    by apply line_of_snoc.
  destruct (Qltb _ _) eqn:Hfit.
  - exists (pend ++ [w]), lines. split_and!; [done| | |done].
    + apply Forall_app; split; [done|]. by constructor.
    + right. by apply Qltb_lt in Hfit.
  - exists [w]. eexists. split_and!.
    + by rewrite (line_of_cons w []).
    + by constructor.
    + right. by rewrite (line_of_cons w []).
    + destruct (truthy (line_of pend)) eqn:E; [|done].
      apply Forall_app; split; [done|]. constructor; [|done].
      destruct Hcur as [->|Hcur]; [done|].
      apply strip_narrow; [done| |done]. by intros ->.
Qed.

Lemma wrap_words_narrow ws : forall pend lines,
  Forall word_ok pend -> Forall word_ok ws ->
  Forall (fun w => narrow (w ++ py " ")) ws ->
  (pend = [] \/ narrow (line_of pend)) ->
  Forall narrow lines ->
  exists pend' lines',
    fold_left wrap_word ws (line_of pend, lines) = (line_of pend', lines')
    /\ Forall word_ok pend'
    /\ (pend' = [] \/ narrow (line_of pend'))
    /\ Forall narrow lines'.
Proof.
  induction ws as [|w ws IH]; intros pend lines Hpend Hws Hfit Hcur Hlines.
  - by exists pend, lines.
  - inversion Hws; inversion Hfit; subst.
    destruct (wrap_word_narrow pend lines w)
      as (p1 & l1 & Hstep & Hp1 & Hc1 & Hl1); [done..|].
    cbn [fold_left]. rewrite Hstep. by apply IH.
Qed.

Lemma wrap_paragraph_narrow lines paragraph :
  Forall (fun w => narrow (w ++ py " ")) (split paragraph) ->
  Forall narrow lines ->
  Forall narrow (wrap_paragraph lines paragraph).
Proof.
  intros Hfit Hlines. unfold wrap_paragraph.
  destruct (wrap_words_narrow (split paragraph) [] lines)
    as (pend & lines' & Hfold & Hpend & Hcur & Hl');
    [constructor|apply split_ok|done|by left|done|].
  change (fold_left wrap_word (split paragraph) ([], lines)
          = (line_of pend, lines')) in Hfold.
  rewrite Hfold.
  destruct (truthy (line_of pend)) eqn:E; [|done].
  apply Forall_app; split; [done|]. constructor; [|done].
  destruct Hcur as [->|Hcur]; [done|].
  apply strip_narrow; [done| |done]. by intros ->.
Qed.

(** C1: when every word of the message, measured in Helvetica 12 with
    its one trailing space, is narrower than [max_width], every line
    the wrap loop produces is narrower than [max_width].  Of the font
    metrics this uses that a text followed by a space is at least as wide
    as the text. *)
Theorem wrapped_lines_narrow message :
  (forall paragraph word,
      paragraph ∈ splitlines message -> word ∈ split paragraph ->
      (stringWidth (word ++ py " ") Helvetica 12 < inject_Z max_width)%Q) ->
  Forall
    (fun line => (stringWidth line Helvetica 12 < inject_Z max_width)%Q)
    (wrap_message message).
Proof.
  intros Hwords. unfold wrap_message.
  assert (forall paragraphs lines,
             paragraphs ⊆ splitlines message -> Forall narrow lines ->
             Forall narrow (fold_left wrap_paragraph paragraphs lines)) as Hloop.
  { induction paragraphs as [|p ps IH]; intros lines Hsub Hlines; [done|].
    cbn [fold_left]. apply IH; [set_solver|].
    apply wrap_paragraph_narrow; [|done].
    apply Forall_forall. intros w Hw. apply (Hwords p); [set_solver|done]. }
  apply Hloop; [done|constructor].
Qed.

End WrapWidths.

(** ** Vertical placement *)

Example max_lines_value : max_lines = 26.
Proof. reflexivity. Qed.

(** As long as the lines left fit below index [max_lines], the loop is
    never left early: line [j] of the remaining ones is drawn at
    [message_top - (i + j) * line_height]. *)
Lemma draw_lines_within lines : forall (c : canvas) (i : nat),
  (i + length lines <= Z.to_nat max_lines)%nat ->
  draw_lines c (Z.of_nat i) lines
  = mk_canvas (pagesize c) (fillColor c) (fontName c) (fontSize c)
      (drawn c
       ++ imap (fun j line =>
                  mk_draw (inject_Z message_left)
                    (inject_Z (message_top - Z.of_nat (i + j) * line_height))
                    line (fontName c) (fontSize c) (fillColor c))
            lines).
Proof.
  induction lines as [|line rest IH]; intros c i Hle.
  - simpl. rewrite app_nil_r. by destruct c.
  - cbn [draw_lines length] in *.
    assert (Z.of_nat i <= 25) as Hi.
    { change (Z.to_nat max_lines) with 26%nat in Hle. lia. }
    destruct (_ <? _) eqn:Hy.
    { apply Z.ltb_lt in Hy. unfold message_top, message_bottom, line_height in Hy. lia. }
    replace (Z.of_nat i + 1) with (Z.of_nat (S i)) by lia.
    rewrite IH by (simpl; lia). unfold drawString. simpl.
    rewrite <- app_assoc. simpl. rewrite Nat.add_0_r.
    do 3 f_equal. apply imap_ext. intros j x _. simpl.
    by replace (S (i + j)) with (i + S j)%nat by lia.
Qed.

(** C5: of any sequence of wrapped lines the drawing loop draws the first
    [max_lines] ones and nothing else, where [max_lines] is the floor of
    [(message_top - message_bottom) / line_height]; line [i], counted from
    0, is drawn at [y = message_top - i * line_height].  The loop is a
    total function of its input: no line makes it fail. *)
Theorem draw_lines_bounded (c : canvas) (lines : list pystr) :
  let shown := slice_to max_lines lines in
  max_lines = (message_top - message_bottom) `div` line_height
  /\ (length shown <= Z.to_nat max_lines)%nat
  /\ shown = take (Z.to_nat max_lines) lines
  /\ drawn (draw_lines c 0 shown)
     = drawn c
       ++ imap (fun i line =>
                  mk_draw (inject_Z message_left)
                    (inject_Z (message_top - Z.of_nat i * line_height))
                    line (fontName c) (fontSize c) (fillColor c))
            shown.
Proof.
  intros shown.
  assert (length shown <= Z.to_nat max_lines)%nat as Hlen.
  { unfold shown, slice_to. rewrite length_take. lia. }
  split_and!; [reflexivity|done|done|].
  change 0 with (Z.of_nat 0). by rewrite draw_lines_within.
Qed.

(** ** Paths *)

Example join_demo :
  PosixPath.join CARDS_FOLDER (py "a.pdf") = py "static/cards/a.pdf"
  /\ PosixPath.join CARDS_FOLDER (py "/etc/passwd") = py "/etc/passwd".
Proof. split; reflexivity. Qed.

Example dirname_demo :
  PosixPath.dirname (py "static/cards/a.pdf") = py "static/cards"
  /\ PosixPath.dirname (py "static/cards/../a.pdf") = py "static/cards/.."
  /\ PosixPath.dirname (py "static/cards//a.pdf") = py "static/cards"
  /\ PosixPath.dirname (py "/a.pdf") = py "/"
  /\ PosixPath.dirname (py "a.pdf") = [].
Proof. repeat split; reflexivity. Qed.

Section PathLemmas.
Import PosixPath.

Let nonsep (c : char) : Prop := (c =? sep)%N = false.

Lemma head_of_sep p : head_of (sep :: p) = sep :: head_of p.
Proof. simpl. by destruct (head_of p). Qed.

Lemma head_of_nil p : head_of p = [] -> Forall nonsep p.
Proof.
  induction p as [|c p IH]; simpl; [constructor|].
  destruct (head_of p); [|done].
  destruct (c =? sep)%N eqn:Hc; [done|]. intros _. by constructor; [|apply IH].
Qed.

Lemma head_of_app a b : head_of b <> [] -> head_of (a ++ b) = a ++ head_of b.
Proof.
  intros Hb. induction a as [|c a IH]; simpl; [done|].
  rewrite IH. by destruct a, (head_of b).
Qed.

(** A non-empty head starts like the path itself. *)
Lemma head_of_first c h p : head_of p = c :: h -> exists t, p = c :: t.
Proof.
  destruct p as [|a p]; simpl; [done|].
  destruct (head_of p).
  - destruct (a =? sep)%N; [|done]. intros [= <- _]. by eexists.
  - intros [= <- _]. by eexists.
Qed.

Lemma rstrip_chars_nil drop s :
  rstrip_chars drop s = [] -> forallb drop s = true.
Proof.
  induction s as [|c s IH]; simpl; [done|].
  destruct (rstrip_chars drop s); [|done].
  destruct (drop c); [|done]. intros _. by rewrite IH.
Qed.

Lemma rstrip_chars_app drop a b :
  rstrip_chars drop b <> [] ->
  rstrip_chars drop (a ++ b) = a ++ rstrip_chars drop b.
Proof.
  intros Hb. induction a as [|c a IH]; simpl; [done|].
  rewrite IH. by destruct a, (rstrip_chars drop b).
Qed.

Lemma components_from_nonsep w : forall cur rest,
  Forall nonsep w ->
  components_from cur (w ++ rest) = components_from (cur ++ w) rest.
Proof.
  induction w as [|c w IH]; intros cur rest Hw; simpl.
  - by rewrite app_nil_r.
  - inversion Hw as [|? ? Hc Hw']; subst. rewrite Hc, IH by done.
    by rewrite <- app_assoc.
Qed.

Lemma components_nonsep w : Forall nonsep w -> components w = [w].
Proof.
  intros Hw. unfold components.
  rewrite <- (app_nil_r w) at 1. by rewrite components_from_nonsep.
Qed.

(** A name inside the managed directory: three components. *)
Lemma components_card name :
  Forall nonsep name ->
  components (CARDS_FOLDER ++ sep :: name) = [py "static"; py "cards"; name].
Proof.
  intros Hname. unfold components. cbn.
  change (components_from [] name) with (components name).
  by rewrite components_nonsep.
Qed.

Lemma join_relative name :
  startswith name [sep] = false ->
  join CARDS_FOLDER name = CARDS_FOLDER ++ sep :: name.
Proof. intros Hrel. unfold join. by rewrite Hrel. Qed.

Lemma startswith_sep name :
  startswith name [sep] = true -> exists t, name = sep :: t.
Proof.
  destruct name as [|c t]; simpl; [done|].
  rewrite andb_true_r. intros ->%N.eqb_eq. by eexists.
Qed.

(** The test [os.path.dirname(filepath) == CARDS_FOLDER] of [delete_card]
    holds for the names without a separator and for no others. *)
Lemma dirname_join_cards name :
  dirname (join CARDS_FOLDER name) = CARDS_FOLDER ->
  Forall nonsep name /\ join CARDS_FOLDER name = CARDS_FOLDER ++ sep :: name.
Proof.
  destruct (startswith name [sep]) eqn:Habs.
  - apply startswith_sep in Habs as [t ->]. unfold join. cbn [startswith].
    rewrite N.eqb_refl. cbn [andb]. unfold dirname. rewrite head_of_sep.
    cbn [truthy andb forallb]. rewrite N.eqb_refl. cbn [andb].
    destruct (negb _); [|done].
    cbn [rstrip_chars]. rewrite N.eqb_refl. by destruct (rstrip_chars _ _).
  - rewrite join_relative by done. intros Hdir. split; [|done].
    apply head_of_nil. destruct (head_of name) as [|c h] eqn:Hh; [done|].
    exfalso. revert Hdir. unfold dirname.
    rewrite (head_of_app CARDS_FOLDER (sep :: name))
      by (rewrite head_of_sep; done).
    rewrite head_of_sep, Hh.
    assert (truthy (CARDS_FOLDER ++ sep :: c :: h)
            && negb (forallb (fun c0 => (c0 =? sep)%N)
                       (CARDS_FOLDER ++ sep :: c :: h)) = true) as ->
      by reflexivity.
    destruct (rstrip_chars (fun c0 => (c0 =? sep)%N) (sep :: c :: h))
      as [|r rs] eqn:Hr.
    + apply rstrip_chars_nil in Hr. cbn [forallb] in Hr.
      apply andb_prop in Hr as [_ [Hc _]%andb_prop]. apply N.eqb_eq in Hc.
      subst c. apply head_of_first in Hh as [t ->]. simpl in Habs. done.
    + rewrite rstrip_chars_app by (by rewrite Hr). rewrite Hr.
      intros Hdir. apply (f_equal length) in Hdir.
      rewrite length_app in Hdir. simpl in Hdir. lia.
Qed.

End PathLemmas.

(** ** The file system *)

Section FsLemmas.
Import PosixPath FS.

Let nonsep (c : char) : Prop := (c =? sep)%N = false.

Lemma node_at_snoc (fs : t) (k : key) (x : pystr) :
  node_at fs (k ++ [x]) = nodes fs !! (k ++ [x]).
Proof. by destruct k. Qed.

Lemma walk_app fs a : forall at_ b,
  walk fs at_ (a ++ b)
  = match walk fs at_ a with
    | Ok d => walk fs d b
    | Error e => Error e
    end.
Proof.
  induction a as [|c a IH]; intros at_ b; [done|]. cbn [walk app].
  destruct (node_at fs at_) as [[|]|]; [done| |done].
  destruct (is_dot c); [apply IH|]. destruct (is_dotdot c); [apply IH|].
  destruct (NAME_MAX <? byte_length c); [done|apply IH].
Qed.

(** Where [CARDS_FOLDER] leads: two steps down from the working
    directory, through directories. *)
Lemma resolve_cards fs :
  resolve fs CARDS_FOLDER
  = match node_at fs (cwd fs) with
    | Some Dir =>
        match node_at fs (cwd fs ++ [py "static"]) with
        | Some Dir => Ok (cwd fs ++ [py "static"; py "cards"])
        | Some (File _) => Error ENOTDIR
        | None => Error ENOENT
        end
    | Some (File _) => Error ENOTDIR
    | None => Error ENOENT
    end.
Proof.
  unfold resolve.
  change (truthy CARDS_FOLDER) with true.
  change (PATH_MAX <=? byte_length CARDS_FOLDER) with false.
  change (start_of fs CARDS_FOLDER) with (cwd fs).
  change (components CARDS_FOLDER) with [py "static"; py "cards"].
  cbn [walk].
  change (is_dot (py "static")) with false.
  change (is_dotdot (py "static")) with false.
  change (NAME_MAX <? byte_length (py "static")) with false.
  change (is_dot (py "cards")) with false.
  change (is_dotdot (py "cards")) with false.
  change (NAME_MAX <? byte_length (py "cards")) with false.
  cbv iota. rewrite <- app_assoc.
  destruct (node_at fs (cwd fs)) as [[|]|]; [done| |done].
  by destruct (node_at fs (cwd fs ++ [py "static"])) as [[|]|].
Qed.

Lemma resolve_cards_inv fs d :
  resolve fs CARDS_FOLDER = Ok d ->
  d = cwd fs ++ [py "static"; py "cards"]
  /\ node_at fs (cwd fs) = Some Dir
  /\ node_at fs (cwd fs ++ [py "static"]) = Some Dir.
Proof.
  rewrite resolve_cards.
  destruct (node_at fs (cwd fs)) as [[|]|]; [done| |done].
  destruct (node_at fs (cwd fs ++ [py "static"])) as [[|]|]; [done| |done].
  by intros [= <-].
Qed.

(** A name without separator is looked up in the managed directory. *)
Lemma walk_cards (fs : t) :
  walk fs (cwd fs) [py "static"; py "cards"] = resolve fs CARDS_FOLDER.
Proof. reflexivity. Qed.

Lemma resolve_card (fs : t) (name : pystr) :
  Forall nonsep name ->
  resolve fs (CARDS_FOLDER ++ sep :: name)
  = if PATH_MAX <=? byte_length (CARDS_FOLDER ++ sep :: name)
    then Error ENAMETOOLONG
    else match resolve fs CARDS_FOLDER with
         | Ok d => walk fs d [name]
         | Error e => Error e
         end.
Proof.
  intros Hname. unfold resolve at 1.
  change (truthy (CARDS_FOLDER ++ sep :: name)) with true.
  change (start_of fs (CARDS_FOLDER ++ sep :: name)) with (cwd fs).
  rewrite components_card by done.
  change [py "static"; py "cards"; name]
    with ([py "static"; py "cards"] ++ [name]).
  rewrite walk_app, walk_cards. done.
Qed.

Lemma byte_length_app (a b : pystr) :
  byte_length (a ++ b) = byte_length a + byte_length b.
Proof.
  unfold byte_length. induction a as [|c a IH]; simpl; [done|]. rewrite IH. lia.
Qed.

Lemma utf8_length_pos (c : char) : 1 <= utf8_length c <= 4.
Proof. unfold utf8_length. repeat case_match; lia. Qed.

Lemma byte_length_nonneg (s : pystr) : 0 <= byte_length s.
Proof.
  unfold byte_length. induction s as [|c s IH]; simpl; [done|].
  pose proof (utf8_length_pos c). lia.
Qed.

(** A name that fits a directory entry gives a path that fits too. *)
Lemma card_path_short (name : pystr) :
  byte_length name <= NAME_MAX ->
  (PATH_MAX <=? byte_length (CARDS_FOLDER ++ sep :: name)) = false.
Proof.
  intros Hname. apply Z.leb_gt.
  rewrite byte_length_app.
  change (sep :: name) with ([sep] ++ name). rewrite byte_length_app.
  change (byte_length CARDS_FOLDER) with 12. change (byte_length [sep]) with 1.
  unfold PATH_MAX, NAME_MAX in *. lia.
Qed.

Lemma isfile_card_inv (fs : t) (name : pystr) :
  Forall nonsep name ->
  isfile fs (CARDS_FOLDER ++ sep :: name) = true ->
  let d := cwd fs ++ [py "static"; py "cards"] in
  resolve fs CARDS_FOLDER = Ok d
  /\ node_at fs d = Some Dir
  /\ resolve fs (CARDS_FOLDER ++ sep :: name) = Ok (d ++ [name])
  /\ (exists data, nodes fs !! (d ++ [name]) = Some (File data))
  /\ is_dot name = false /\ is_dotdot name = false
  /\ byte_length name <= NAME_MAX.
Proof.
  intros Hname. unfold isfile, stat. rewrite resolve_card by done.
  destruct (PATH_MAX <=? byte_length (CARDS_FOLDER ++ sep :: name)); [done|].
  destruct (resolve fs CARDS_FOLDER) as [d|e] eqn:Hd; [|done].
  apply resolve_cards_inv in Hd as Hd'. destruct Hd' as (-> & Hcwd & Hstatic).
  cbn [walk]. intros Hfile.
  set (d := cwd fs ++ [py "static"; py "cards"]) in *.
  destruct (node_at fs d) as [[|]|] eqn:Hdir; [done| |done].
  destruct (is_dot name) eqn:Hdot.
  { by rewrite Hdir in Hfile. }
  destruct (is_dotdot name) eqn:Hdd.
  { unfold d in Hfile.
    change (cwd fs ++ [py "static"; py "cards"])
      with (cwd fs ++ [py "static"] ++ [py "cards"]) in Hfile.
    rewrite app_assoc, removelast_last, Hstatic in Hfile. done. }
  destruct (NAME_MAX <? byte_length name) eqn:Hlong; [done|].
  apply Z.ltb_ge in Hlong.
  rewrite node_at_snoc in Hfile.
  split_and!; [done..| |done|done|done].
  repeat case_match; try done. simplify_eq. by eexists.
Qed.

Lemma remove_card (fs : t) (name : pystr) :
  Forall nonsep name ->
  isfile fs (CARDS_FOLDER ++ sep :: name) = true ->
  remove fs (CARDS_FOLDER ++ sep :: name)
  = Ok (mk (delete ((cwd fs ++ [py "static"; py "cards"]) ++ [name]) (nodes fs))
          (cwd fs)).
Proof.
  intros Hname Hfile.
  destruct (isfile_card_inv fs name Hname Hfile)
    as (_ & _ & Hres & [data Hnode] & _).
  unfold remove. rewrite Hres.
  destruct (node_at fs _) as [n|] eqn:E; rewrite node_at_snoc in E;
    rewrite Hnode in E; by simplify_eq.
Qed.

End FsLemmas.

(** ** Deleting a card *)

Example delete_card_removes :
  FS.isfile sample_fs (py "static/cards/Bob_farewell_card.pdf") = true
  /\ FS.isfile (snd (delete_card (py "Bob_farewell_card.pdf") sample_fs))
       (py "static/cards/Bob_farewell_card.pdf") = false.
Proof. split; vm_compute; reflexivity. Qed.

Example delete_card_traversal :
  FS.isfile sample_fs (py "static/cards/../../Farewell_Card.pdf") = true
  /\ delete_card (py "../../Farewell_Card.pdf") sample_fs
     = (redirect (py "admin"), sample_fs).
Proof. split; reflexivity. Qed.

Example delete_card_dotdot :
  FS.exists_ sample_fs (py "static/cards/..") = true
  /\ delete_card (py "..") sample_fs = (redirect (py "admin"), sample_fs).
Proof. split; reflexivity. Qed.

(** C6: [delete_card] always answers with the redirect to the admin page.
    It changes the file system only when the joined path exists, is a
    regular file and has [CARDS_FOLDER] as its directory part; a file name
    with a [..] component or with a separator, or a path that does not
    exist, changes nothing;
    and the only change ever made is the removal of the regular file
    called [filename] in the directory [CARDS_FOLDER] leads to. *)
Theorem delete_card_confined (filename : pystr) (fs : FS.t) :
  let filepath := PosixPath.join CARDS_FOLDER filename in
  let fs' := snd (delete_card filename fs) in
  fst (delete_card filename fs) = redirect (py "admin")
  /\ (fs' <> fs ->
        FS.exists_ fs filepath = true /\ FS.isfile fs filepath = true
        /\ PosixPath.dirname filepath = CARDS_FOLDER)
  /\ (py ".." ∈ PosixPath.components filename -> fs' = fs)
  /\ (PosixPath.sep ∈ filename -> fs' = fs)
  /\ (FS.exists_ fs filepath = false -> fs' = fs)
  /\ FS.cwd fs' = FS.cwd fs
  /\ (forall k, FS.nodes fs' !! k <> FS.nodes fs !! k ->
        exists d data,
          FS.resolve fs CARDS_FOLDER = FS.Ok d
          /\ k = d ++ [filename]
          /\ FS.nodes fs !! k = Some (FS.File data)
          /\ FS.nodes fs' !! k = None).
Proof.
  intros filepath fs'. subst fs'. unfold delete_card. fold filepath.
  destruct (FS.exists_ fs filepath && FS.isfile fs filepath
            && PyStr.eqb (PosixPath.dirname filepath) CARDS_FOLDER) eqn:Hguard.
  2: { simpl. split_and!; done. }
  apply andb_prop in Hguard as [[Hex Hfile]%andb_prop Hdir].
  apply bool_decide_eq_true in Hdir.
  destruct (dirname_join_cards filename Hdir) as [Hname Hjoin].
  unfold filepath in *. rewrite Hjoin in *.
  destruct (isfile_card_inv fs filename Hname Hfile)
    as (Hd & Hdnode & Hres & [data Hnode] & Hdot & Hdd & _).
  rewrite (remove_card fs filename Hname Hfile). cbn [fst snd FS.cwd FS.nodes].
  split_and!; try done.
  - rewrite components_nonsep by done. intros Hin%list_elem_of_singleton.
    by rewrite <- Hin in Hdd.
  - intros Hin. eapply Forall_forall in Hname; [|exact Hin].
    by rewrite N.eqb_refl in Hname.
  - by rewrite Hex.
  - intros k Hk. eexists _, data. split; [exact Hd|].
    destruct (decide (k = (FS.cwd fs ++ [py "static"; py "cards"]) ++ [filename]))
      as [->|Hne].
    + by rewrite lookup_delete_eq.
    + by rewrite lookup_delete_ne in Hk.
Qed.

(** ** Submitting a card *)

Section IndexProps.
Context `{FontMetrics} `{PdfLibrary} `{FloatArith}.

(** C4: a POST whose trimmed name is empty, whose trimmed message is
    empty, or whose trimmed message has more than 2000 characters is
    answered with the form and a validation error, and the file system
    is left as it was. *)
Theorem invalid_submission_rejected (req : request) (fs : FS.t) :
  method req = POST ->
  strip (form_get req (py "name") []) = []
  \/ strip (form_get req (py "message") []) = []
  \/ MAX_MESSAGE_CHARS < len (strip (form_get req (py "message") [])) ->
  exists error,
    index req fs = (render_index (Some error) None, fs)
    /\ (error = EnterBoth \/ error = TooLong MAX_MESSAGE_CHARS).
Proof.
  intros Hpost Hinvalid. unfold index. rewrite Hpost.
  destruct (negb (truthy _) || negb (truthy _)) eqn:Hboth.
  - exists EnterBoth. by split; [|left].
  - apply orb_false_elim in Hboth as [Hn Hm].
    apply negb_false_iff, truthy_true in Hn, Hm.
    destruct Hinvalid as [?|[?|Hlong]]; [done..|].
    apply Z.ltb_lt in Hlong. rewrite Hlong.
    exists (TooLong MAX_MESSAGE_CHARS). by split; [|right].
Qed.

Lemma merged_card_reads_only name message fs o fs1 :
  merged_card name message fs = (o, fs1) -> fs1 = fs.
Proof.
  unfold merged_card, bind, lift.
  repeat (case_match; simplify_eq; try done); by intros [= _ <-].
Qed.

(** A submission that passes the checks reaches the [try] statement. *)
Lemma index_accepts (req : request) (fs : FS.t) :
  method req = POST ->
  let name := strip (form_get req (py "name") []) in
  let message := strip (form_get req (py "message") []) in
  name <> [] -> message <> [] -> len message <= MAX_MESSAGE_CHARS ->
  index req fs
  = match write_card name message
            (PosixPath.join CARDS_FOLDER (output_filename_of name)) fs with
    | (Return _, fs') => (redirect (py "index"), fs')
    | (Raise e, fs') =>
        if is_FileNotFoundError e
        then (render_index (Some (TemplateNotFound TEMPLATE_PATH)) None, fs')
        else (render_index (Some (GeneratingPDF e)) None, fs')
    end.
Proof.
  intros Hpost name message Hn Hm Hlen. unfold index. rewrite Hpost.
  fold name message.
  apply truthy_true in Hn as ->. apply truthy_true in Hm as ->.
  apply Z.ltb_ge in Hlen as ->. done.
Qed.

(** What a POST does, by the outcome of the two checks. *)
Lemma index_post_cases (req : request) (fs : FS.t) :
  method req = POST ->
  let name := strip (form_get req (py "name") []) in
  let message := strip (form_get req (py "message") []) in
  (name <> [] /\ message <> [] /\ len message <= MAX_MESSAGE_CHARS)
  \/ ((name = [] \/ message = [] \/ MAX_MESSAGE_CHARS < len message)
      /\ snd (index req fs) = fs).
Proof.
  intros Hpost name message. unfold index. rewrite Hpost. fold name message.
  destruct (truthy name) eqn:Hn; [|apply truthy_false in Hn; right; auto].
  destruct (truthy message) eqn:Hm; [|apply truthy_false in Hm; right; auto].
  apply truthy_true in Hn, Hm. cbn [negb orb].
  destruct (MAX_MESSAGE_CHARS <? len message) eqn:Hlen.
  - apply Z.ltb_lt in Hlen. right. auto.
  - apply Z.ltb_ge in Hlen. left. auto.
Qed.

(** C9: for every POST, (a) when the template path names nothing, the file
    system is left unchanged, and a submission that passes the checks is
    answered with the "template not found" error; (b) when any step
    before the output file is opened raises, the file system is left
    unchanged, and the answer is the generic rendering error unless the
    exception is a [FileNotFoundError]; (c) the file system changes only
    for a submission that passes the checks, and only after the overlay
    has been serialized and merged into the template page and the writer
    has taken the merged page. *)
Theorem render_faults_write_nothing (req : request) (fs : FS.t) :
  method req = POST ->
  let name := strip (form_get req (py "name") []) in
  let message := strip (form_get req (py "message") []) in
  let valid :=
    name <> [] /\ message <> [] /\ len message <= MAX_MESSAGE_CHARS in
  (FS.stat fs TEMPLATE_PATH = FS.Error FS.ENOENT ->
     snd (index req fs) = fs
     /\ (valid ->
           fst (index req fs)
           = render_index (Some (TemplateNotFound TEMPLATE_PATH)) None))
  /\ (forall e fs1,
        merged_card name message fs = (Raise e, fs1) ->
        snd (index req fs) = fs
        /\ (valid -> is_FileNotFoundError e = false ->
              fst (index req fs) = render_index (Some (GeneratingPDF e)) None))
  /\ (snd (index req fs) <> fs ->
        valid /\ exists w, merged_card name message fs = (Return w, fs)).
Proof.
  intros Hpost name message valid.
  destruct (index_post_cases req fs Hpost) as [(Hn & Hm & Hlen)|[Hinvalid Hsame]].
  2: { assert (~ valid) as Hnot.
       { unfold valid. fold name message in Hinvalid. intros (? & ? & ?).
         destruct Hinvalid as [?|[?|?]]; [done..|lia]. }
       split_and!; [by split|by split|done]. }
  rewrite (index_accepts req fs Hpost Hn Hm Hlen). fold name message.
  unfold write_card, bind.
  split_and!.
  - intros Hstat. unfold merged_card, bind, FS.read. by rewrite Hstat.
  - intros e fs1 Hraise.
    pose proof (merged_card_reads_only _ _ _ _ _ Hraise) as ->.
    rewrite Hraise. split; [by destruct (is_FileNotFoundError e)|].
    by intros _ ->.
  - destruct (merged_card name message fs) as [[w|e] fs1] eqn:Hmerged.
    + pose proof (merged_card_reads_only _ _ _ _ _ Hmerged) as ->.
      intros _. split; [done|]. by exists w.
    + pose proof (merged_card_reads_only _ _ _ _ _ Hmerged) as ->.
      by destruct (is_FileNotFoundError e).
Qed.

End IndexProps.

(** ** The listing *)

Lemma leb_total (a : pystr) : forall b, leb a b = true \/ leb b a = true.
Proof.
  induction a as [|x a IH]; intros [|y b]; simpl; auto.
  destruct (N.lt_trichotomy x y) as [Hlt|[->|Hgt]].
  - left. apply N.ltb_lt in Hlt. by rewrite Hlt.
  - rewrite N.ltb_irrefl, N.eqb_refl. simpl. apply IH.
  - right. apply N.ltb_lt in Hgt. by rewrite Hgt.
Qed.

Lemma leb_trans (a : pystr) : forall b c,
  leb a b = true -> leb b c = true -> leb a c = true.
Proof.
  induction a as [|x a IH]; intros [|y b] [|z c]; simpl; try done.
  rewrite !orb_true_iff, !andb_true_iff, !N.ltb_lt, !N.eqb_eq.
  intros [Hxy|[-> Hab]] [Hyz|[-> Hbc]].
  - left. lia.
  - by left.
  - by left.
  - right. split; [done|]. by apply (IH b).
Qed.

#[local] Instance le_total : Total PyStr.le.
Proof. intros a b. apply leb_total. Qed.

#[local] Instance le_transitive : Transitive PyStr.le.
Proof. intros a b c. apply leb_trans. Qed.

Example sorted_demo :
  sorted [py "b.pdf"; py "a.pdf"; py "B.pdf"; py "ab.pdf"]
  = [py "B.pdf"; py "a.pdf"; py "ab.pdf"; py "b.pdf"].
Proof. vm_compute. reflexivity. Qed.

Example output_filename_demo :
  output_filename_of (py "Ada Lovelace") = py "Ada_Lovelace_farewell_card.pdf"
  /\ output_filename_of (py "a/b c") = py "a_b_c_farewell_card.pdf".
Proof. split; reflexivity. Qed.

Section ListingLemmas.
Import PosixPath FS.

Let nonsep (c : char) : Prop := (c =? sep)%N = false.

Lemma output_filename_nonsep (name : pystr) :
  Forall nonsep (output_filename_of name).
Proof.
  unfold output_filename_of. apply Forall_app. split.
  - unfold replace. apply Forall_map, Forall_forall. intros c _.
    unfold nonsep. simpl. by destruct (c =? SLASH)%N eqn:E.
  - repeat constructor.
Qed.

Lemma output_filename_length (name : pystr) :
  (18 <= length (output_filename_of name))%nat.
Proof. unfold output_filename_of. rewrite length_app. simpl. lia. Qed.

Lemma output_filename_pdf (name : pystr) :
  endswith (output_filename_of name) (py ".pdf") = true.
Proof.
  unfold output_filename_of, endswith. rewrite rev_app_distr. reflexivity.
Qed.

Lemma long_name_not_dots (name : pystr) :
  (3 <= length name)%nat -> is_dot name = false /\ is_dotdot name = false.
Proof.
  intros Hlen. unfold is_dot, is_dotdot, PyStr.eqb.
  rewrite !bool_decide_eq_false_2; [done|..]; intros ->; simpl in Hlen; lia.
Qed.

(** Opening a name of the managed directory for writing. *)
Lemma open_wb_card (fs : t) (name : pystr) (f : key) (fs1 : t) :
  Forall nonsep name ->
  open_wb fs (CARDS_FOLDER ++ sep :: name) = Ok (f, fs1) ->
  resolve fs CARDS_FOLDER = Ok (cwd fs ++ [py "static"; py "cards"])
  /\ node_at fs (cwd fs ++ [py "static"; py "cards"]) = Some Dir
  /\ f = (cwd fs ++ [py "static"; py "cards"]) ++ [name]
  /\ fs1 = mk (<[f := File []]> (nodes fs)) (cwd fs)
  /\ byte_length name <= NAME_MAX.
Proof.
  intros Hname. unfold open_wb.
  change (truthy (CARDS_FOLDER ++ sep :: name)) with true. cbv iota.
  destruct (PATH_MAX <=? byte_length (CARDS_FOLDER ++ sep :: name)); [done|].
  rewrite components_card by done.
  change (last [py "static"; py "cards"; name]) with (Some name).
  change (removelast [py "static"; py "cards"; name])
    with [py "static"; py "cards"].
  change (walk fs (start_of fs (CARDS_FOLDER ++ sep :: name))
            [py "static"; py "cards"])
    with (resolve fs CARDS_FOLDER).
  destruct (resolve fs CARDS_FOLDER) as [d|e] eqn:Hd; [|done].
  apply resolve_cards_inv in Hd as Hd'. destruct Hd' as (-> & _ & _).
  destruct (node_at fs _) as [[|]|] eqn:Hdir; [done| |done].
  destruct (is_dot name || is_dotdot name); [done|].
  destruct (NAME_MAX <? byte_length name) eqn:Hlong; [done|].
  apply Z.ltb_ge in Hlong.
  destruct (node_at fs (_ ++ [name])) as [[|]|]; [|done|];
    by intros [= <- <-].
Qed.

Lemma entry_of_snoc (d : key) (name : pystr) :
  entry_of d (d ++ [name]) = Some name.
Proof.
  unfold entry_of. rewrite last_snoc, removelast_last.
  by rewrite bool_decide_eq_true_2.
Qed.

(** After a file has been written into the managed directory, the
    directory lists it. *)
Lemma listdir_after_write (fs fs' : t) (name : pystr) (data : list N) :
  let d := cwd fs ++ [py "static"; py "cards"] in
  fs' = write (mk (<[d ++ [name] := File []]> (nodes fs)) (cwd fs))
          (d ++ [name]) data ->
  Forall nonsep name -> is_dot name = false -> is_dotdot name = false ->
  byte_length name <= NAME_MAX ->
  resolve fs CARDS_FOLDER = Ok d ->
  node_at fs d = Some Dir ->
  isfile fs' (CARDS_FOLDER ++ sep :: name) = true
  /\ exists names, listdir fs' CARDS_FOLDER = Ok names /\ name ∈ names.
Proof.
  intros d -> Hname Hdot Hdd Hshort Hd Hdir.
  set (fs' := write _ _ _).
  apply resolve_cards_inv in Hd as (_ & Hcwd & Hstatic).
  assert (forall k, length k < length (d ++ [name]) ->
                    node_at fs' k = node_at fs k)%nat as Hsame.
  { intros k Hk. destruct k as [|x k]; [done|].
    unfold node_at, fs', write. cbn [nodes].
    rewrite !lookup_insert_ne; [done|intros E; rewrite E in Hk; lia..]. }
  assert (resolve fs' CARDS_FOLDER = Ok d) as Hd'.
  { rewrite resolve_cards. change (cwd fs') with (cwd fs).
    rewrite !Hsame, Hcwd, Hstatic; [done|unfold d; rewrite !length_app; simpl; lia..]. }
  assert (node_at fs' d = Some Dir) as Hdir'.
  { rewrite Hsame; [done|rewrite length_app; simpl; lia]. }
  assert (nodes fs' !! (d ++ [name]) = Some (File data)) as Hfile.
  { unfold fs', write. cbn [nodes]. by rewrite lookup_insert_eq. }
  split.
  - unfold isfile, stat.
    rewrite resolve_card, (card_path_short name Hshort), Hd' by done.
    cbn [walk]. apply Z.ltb_ge in Hshort.
    rewrite Hdir', Hdot, Hdd, Hshort, node_at_snoc, Hfile. done.
  - unfold listdir. rewrite Hd', Hdir'. eexists. split; [done|].
    apply list_elem_of_omap. exists (d ++ [name], File data). split.
    + by apply elem_of_map_to_list.
    + apply entry_of_snoc.
Qed.

End ListingLemmas.

Section Listing.
Context `{FontMetrics} `{PdfLibrary} `{FloatArith}.

Lemma index_get (fs : FS.t) :
  index (mk_request GET []) fs
  = match list_cards fs with
    | Return cards => (render_index None (Some cards), fs)
    | Raise e => (server_error e, fs)
    end.
Proof. reflexivity. Qed.

(** C8, as amended: the output file name of every submission is the
    trimmed name, every space and every slash replaced by an underscore,
    followed by [_farewell_card.pdf]; the name [Ada Lovelace] gives
    [Ada_Lovelace_farewell_card.pdf].  When a POST is accepted and its
    card written (the handler answers with the redirect), the file of
    that name is a regular file of the managed directory, and the listing
    a following GET shows is sorted and contains that name. *)
Theorem card_named_and_listed (req : request) (fs fs' : FS.t) :
  let name := strip (form_get req (py "name") []) in
  let output_filename := output_filename_of name in
  output_filename
  = map (fun c => if bool_decide (c = SPACE \/ c = SLASH)
                  then UNDERSCORE else c) name
    ++ py "_farewell_card.pdf"
  /\ output_filename_of (py "Ada Lovelace")
     = py "Ada_Lovelace_farewell_card.pdf"
  /\ (method req = POST ->
      index req fs = (redirect (py "index"), fs') ->
      FS.isfile fs' (PosixPath.join CARDS_FOLDER output_filename) = true
      /\ exists cards,
           index (mk_request GET []) fs' = (render_index None (Some cards), fs')
           /\ output_filename ∈ cards
           /\ StronglySorted PyStr.le cards).
Proof.
  intros name output_filename.
  split; [|split; [reflexivity|intros Hpost Hindex]].
  { unfold output_filename, output_filename_of, replace. f_equal.
    rewrite map_map. apply map_ext. intros c.
    destruct (c =? SPACE)%N eqn:E1.
    - apply N.eqb_eq in E1 as ->. by rewrite bool_decide_eq_true_2 by auto.
    - destruct (c =? SLASH)%N eqn:E2.
      + apply N.eqb_eq in E2 as ->. by rewrite bool_decide_eq_true_2 by auto.
      + apply N.eqb_neq in E1, E2. rewrite bool_decide_eq_false_2; [done|].
        by intros [|]. }
  pose proof (output_filename_nonsep name) as Hnonsep.
  destruct (long_name_not_dots output_filename) as [Hdot Hdd].
  { pose proof (output_filename_length name). unfold output_filename. lia. }
  assert (PosixPath.join CARDS_FOLDER output_filename
          = CARDS_FOLDER ++ PosixPath.sep :: output_filename) as Hjoin.
  { apply join_relative. unfold output_filename.
    destruct (output_filename_of name) as [|c t] eqn:E; [done|].
    inversion Hnonsep as [|? ? Hc _]; subst. simpl. by rewrite Hc. }
  (* the run of the handler *)
  revert Hindex. unfold index at 1. rewrite Hpost. fold name.
  destruct (negb (truthy name) || _); [done|].
  destruct (MAX_MESSAGE_CHARS <? _); [done|].
  fold output_filename. rewrite Hjoin.
  unfold write_card, bind.
  destruct (merged_card _ _ fs) as [[merged|e] fs0] eqn:Hmerged.
  2: { by destruct (is_FileNotFoundError e). }
  apply merged_card_reads_only in Hmerged as ->.
  unfold open_.
  destruct (fs_converter _) as [e|].
  { by destruct (is_FileNotFoundError e). }
  destruct (FS.open_wb fs _) as [[f fs1]|e] eqn:Hopen.
  2: { by destruct (is_FileNotFoundError _). }
  apply open_wb_card in Hopen as (Hd & Hdir & -> & -> & Hshort); [|done].
  destruct (writer_write merged) as [data [e|]].
  { by destruct (is_FileNotFoundError e). }
  intros Heq. apply (f_equal snd) in Heq. cbn [snd] in Heq.
  destruct (listdir_after_write fs fs' output_filename data)
    as [Hfile (names & Hlist & Hin)]; [by symmetry|done..|].
  split; [done|].
  eexists. rewrite index_get. unfold list_cards. rewrite Hlist.
  split_and!; [done| |].
  - unfold sorted. rewrite merge_sort_Permutation.
    apply list_elem_of_In, filter_In. split; [by apply list_elem_of_In|].
    apply output_filename_pdf.
  - apply StronglySorted_merge_sort; apply _.
Qed.

End Listing.

(** ** The admin login *)

Section AdminProps.
Context `{PasswordHashing}.

(** C10: with only a plain, non-empty [ADMIN_PASSWORD] in the
    environment that does not look like a pbkdf2 hash, and no
    [ADMIN_PASSWORD_HASH], start-up stores the hash of the password and
    sets the global [ADMIN_PASSWORD] to [None]; [admin] compares the
    submitted password with that global and never looks at the stored
    hash; so every POST to [admin], also one with the configured
    password, is answered with "Invalid password.". *)
Theorem plain_secret_rejects_every_login
    (getenv : pystr -> option pystr) (plain : pystr) :
  getenv (py "ADMIN_PASSWORD") = Some plain ->
  plain <> [] ->
  startswith plain (py "pbkdf2:sha256:") = false ->
  truthy_opt (getenv (py "ADMIN_PASSWORD_HASH")) = false ->
  load_settings getenv
  = mk_settings None (Some (generate_password_hash plain))
  /\ (forall cfg stored req fs,
        admin (mk_settings (ADMIN_PASSWORD cfg) stored) req fs
        = admin cfg req fs)
  /\ (forall req fs,
        method req = POST ->
        admin (load_settings getenv) req fs
        = render_admin (Some (py "Invalid password.")) None false)
  /\ admin (load_settings getenv)
       (mk_request POST [(py "password", plain)]) sample_fs
     = render_admin (Some (py "Invalid password.")) None false.
Proof.
  intros Hplain Hne Hpbkdf Hhash.
  assert (load_settings getenv
          = mk_settings None (Some (generate_password_hash plain))) as Hcfg.
  { unfold load_settings. rewrite Hhash, Hplain, Hpbkdf.
    by apply truthy_true in Hne as ->. }
  assert (forall req fs,
             method req = POST ->
             admin (load_settings getenv) req fs
             = render_admin (Some (py "Invalid password.")) None false) as Hall.
  { intros req fs Hpost. rewrite Hcfg. unfold admin. by rewrite Hpost. }
  split_and!; [done|done|done|]. by apply Hall.
Qed.

(** C3 (the code differs): with [ADMIN_PASSWORD=admin123] as the only
    setting, the stored hash is the hash of [admin123], so that the
    hashed comparison the specification describes decides by
    [check_password_hash] on that hash; [admin] rejects the very same
    password. *)
Theorem admin_rejects_configured_password (fs : FS.t) :
  let cfg := load_settings sample_env in
  ADMIN_PASSWORD_HASH cfg = Some (generate_password_hash (py "admin123"))
  /\ hashed_login cfg (py "admin123")
     = check_password_hash (generate_password_hash (py "admin123"))
         (py "admin123")
  /\ admin cfg (mk_request POST [(py "password", py "admin123")]) fs
     = render_admin (Some (py "Invalid password.")) None false.
Proof. split_and!; reflexivity. Qed.

End AdminProps.

(** With a hashing library that verifies what it generated, the
    specification's comparison lets the configured password in. *)
Example hashed_login_accepts :
  hashed_login (H := sample_hashing)
    (load_settings (H := sample_hashing) sample_env) (py "admin123") = true.
Proof. vm_compute. reflexivity. Qed.

(** With both variables set, [admin] compares with the plain
    [ADMIN_PASSWORD] and lets it in whatever the hash is. *)
Example admin_plain_comparison :
  let getenv k :=
    if PyStr.eqb k (py "ADMIN_PASSWORD") then Some (py "letmein")
    else if PyStr.eqb k (py "ADMIN_PASSWORD_HASH") then Some (py "pbkdf2:sha256:x")
    else None in
  admin (load_settings (H := sample_hashing) getenv)
    (mk_request POST [(py "password", py "letmein")]) sample_fs
  = render_admin None (Some [py "Bob_farewell_card.pdf"]) true.
Proof. vm_compute. reflexivity. Qed.

(** ** The theorems at sample inputs *)

Example wrap_demo :
  wrap_message (H := sample_metrics) sample_message
  = [py "So long, and thanks for all the fish. It has been a pleasure to work";
     py "with you, and the office will not be the same.";
     py "Keep in touch!"].
Proof. vm_compute. reflexivity. Qed.

Lemma wrapped_lines_narrow_witness :
  Forall
    (fun line =>
       (stringWidth (FontMetrics := sample_metrics) line Helvetica 12
        < inject_Z max_width)%Q)
    (wrap_message (H := sample_metrics) sample_message).
Proof.
  apply (wrapped_lines_narrow (H := sample_metrics)).
  - intros text. apply afm_space_widens; [lia|]. vm_compute. discriminate.
  - assert (forallb
              (fun paragraph =>
                 forallb
                   (fun word =>
                      Qltb (stringWidth (FontMetrics := sample_metrics)
                              (word ++ py " ") Helvetica 12)
                        (inject_Z max_width))
                   (split paragraph))
              (splitlines sample_message) = true) as Hwords
      by (vm_compute; reflexivity).
    intros paragraph word Hp Hw.
    apply Qltb_lt.
    apply list_elem_of_In in Hp, Hw.
    exact (proj1 (forallb_forall _ _)
             (proj1 (forallb_forall _ _) Hwords paragraph Hp) word Hw).
Defined.

Lemma invalid_submission_rejected_witness :
  exists error,
    index (H := sample_metrics) (H0 := sample_pdf) (H1 := sample_float)
      (sample_post "   " "So long!") sample_fs
    = (render_index (Some error) None, sample_fs)
    /\ (error = EnterBoth \/ error = TooLong MAX_MESSAGE_CHARS).
Proof.
  apply (invalid_submission_rejected (H := sample_metrics)
             (H0 := sample_pdf) (H1 := sample_float)
           (sample_post "   " "So long!") sample_fs).
  - reflexivity.
  - left. reflexivity.
Defined.

Lemma render_faults_write_nothing_witness :
  let req := sample_post "Ada Lovelace" "So long!" in
  snd (index (H := sample_metrics) (H0 := sample_pdf) (H1 := sample_float)
      req sample_fs_no_template)
  = sample_fs_no_template
  /\ (strip (form_get req (py "name") []) <> []
      /\ strip (form_get req (py "message") []) <> []
      /\ len (strip (form_get req (py "message") [])) <= MAX_MESSAGE_CHARS ->
      fst (index (H := sample_metrics) (H0 := sample_pdf) (H1 := sample_float) req
             sample_fs_no_template)
      = render_index (Some (TemplateNotFound TEMPLATE_PATH)) None).
Proof.
  intros req.
  apply (render_faults_write_nothing (H := sample_metrics)
             (H0 := sample_pdf) (H1 := sample_float)
           req sample_fs_no_template).
  - reflexivity.
  - reflexivity.
Defined.

Lemma card_named_and_listed_witness :
  let req := sample_post " Ada Lovelace " "So long!" in
  let fs' := snd (index (H := sample_metrics) (H0 := sample_pdf) (H1 := sample_float)
      req sample_fs) in
  FS.isfile fs' (py "static/cards/Ada_Lovelace_farewell_card.pdf") = true
  /\ exists cards,
       index (H := sample_metrics) (H0 := sample_pdf) (H1 := sample_float)
           (mk_request GET []) fs'
       = (render_index None (Some cards), fs')
       /\ py "Ada_Lovelace_farewell_card.pdf" ∈ cards
       /\ StronglySorted PyStr.le cards.
Proof.
  intros req fs'.
  destruct (card_named_and_listed (H := sample_metrics)
              (H0 := sample_pdf) (H1 := sample_float)
              req sample_fs fs') as (_ & _ & Hlisted).
  apply Hlisted; reflexivity.
Defined.

(** Two submissions that pass both checks and are not listed afterwards:
    one under a name too long for a directory entry, and one made while
    the template is missing. *)
Lemma card_named_and_listed_counterexample :
  let valid req :=
    method req = POST
    /\ strip (form_get req (py "name") []) <> []
    /\ strip (form_get req (py "message") []) <> []
    /\ len (strip (form_get req (py "message") [])) <= MAX_MESSAGE_CHARS in
  let listed_after req fs :=
    exists cards,
      fst (index (H := sample_metrics) (H0 := sample_pdf) (H1 := sample_float)
             (mk_request GET [])
             (snd (index (H := sample_metrics) (H0 := sample_pdf)
                     (H1 := sample_float) req fs)))
      = render_index None (Some cards)
      /\ output_filename_of (strip (form_get req (py "name") [])) ∈ cards in
  (valid sample_long_post /\ ~ listed_after sample_long_post sample_fs)
  /\ (valid (sample_post "Ada Lovelace" "So long!")
      /\ ~ listed_after (sample_post "Ada Lovelace" "So long!")
            sample_fs_no_template).
Proof.
  intros valid listed_after.
  assert (forall name : pystr,
             (length name <> 21)%nat -> name ∉ [py "Bob_farewell_card.pdf"])
    as Hnot.
  { intros name Hlen Hin%list_elem_of_singleton. by subst name. }
  split; (split; [by vm_compute|]).
  - intros (cards & Hcards & Hin).
    assert (cards = [py "Bob_farewell_card.pdf"]) as ->.
    { assert (Some cards = Some [py "Bob_farewell_card.pdf"]) as [= ->]; [|done].
      revert Hcards. generalize (Some cards). intros c Hc.
      apply (f_equal (fun r => match r with
                               | render_index _ c => c
                               | _ => None
                               end)) in Hc.
      rewrite <- Hc. reflexivity. }
    revert Hin. apply Hnot. vm_compute. discriminate.
  - intros (cards & Hcards & Hin).
    assert (cards = [py "Bob_farewell_card.pdf"]) as ->.
    { assert (Some cards = Some [py "Bob_farewell_card.pdf"]) as [= ->]; [|done].
      revert Hcards. generalize (Some cards). intros c Hc.
      apply (f_equal (fun r => match r with
                               | render_index _ c => c
                               | _ => None
                               end)) in Hc.
      rewrite <- Hc. reflexivity. }
    revert Hin. apply Hnot. vm_compute. discriminate.
Qed.

(** A name that is too long for a directory entry: the submission passes
    the checks and is answered with the generic error. *)
Example long_name_not_written :
  index (H := sample_metrics) (H0 := sample_pdf) (H1 := sample_float)
    sample_long_post sample_fs
  = (render_index
       (Some (GeneratingPDF
                (OSError FS.ENAMETOOLONG
                   (py "static/cards/" ++ sample_long_name
                    ++ py "_farewell_card.pdf")))) None,
     sample_fs).
Proof. reflexivity. Qed.

(** A name with a NUL is refused before the operating system sees it. *)
Example nul_name_not_written :
  index (H := sample_metrics) (H0 := sample_pdf) (H1 := sample_float)
    sample_nul_post sample_fs
  = (render_index
       (Some (GeneratingPDF (ValueError (py "embedded null byte")))) None,
     sample_fs).
Proof. reflexivity. Qed.

(** The same without the managed directory: the answer is still the
    generic error, not the "template not found" error. *)
Example nul_name_without_cards_folder :
  index (H := sample_metrics) (H0 := sample_pdf) (H1 := sample_float)
    sample_nul_post sample_fs_no_cards
  = (render_index
       (Some (GeneratingPDF (ValueError (py "embedded null byte")))) None,
     sample_fs_no_cards).
Proof. reflexivity. Qed.

(** Two paragraphs stay apart although they would fit one line. *)
Example wrap_linebreak_demo :
  wrap_message (H := sample_metrics) (py "a" ++ [LF] ++ py "b")
  = [py "a"; py "b"]
  /\ wrap_message (H := sample_metrics) (py "a b") = [py "a b"].
Proof. split; vm_compute; reflexivity. Qed.

(** A card is written and then listed. *)
Example post_then_get :
  let fs' := snd (index (H := sample_metrics) (H0 := sample_pdf) (H1 := sample_float)
                    (sample_post " Ada Lovelace " "So long!") sample_fs) in
  fst (index (H := sample_metrics) (H0 := sample_pdf) (H1 := sample_float)
      (mk_request GET []) fs')
  = render_index None
      (Some [py "Ada_Lovelace_farewell_card.pdf"; py "Bob_farewell_card.pdf"]).
Proof. reflexivity. Qed.

(** Without the template the answer is the "template not found" error. *)
Example missing_template :
  index (H := sample_metrics) (H0 := sample_pdf) (H1 := sample_float)
    (sample_post "Ada Lovelace" "So long!") sample_fs_no_template
  = (render_index (Some (TemplateNotFound TEMPLATE_PATH)) None,
     sample_fs_no_template).
Proof. reflexivity. Qed.

(** A template that cannot be read gives the generic error, and nothing is
    written. *)
Example unreadable_template :
  index (H := sample_metrics) (H0 := sample_pdf) (H1 := sample_float)
    (sample_post "Ada Lovelace" "So long!") sample_fs_empty_template
  = (render_index
       (Some (GeneratingPDF (LibraryError false (py "Cannot read an empty file"))))
       None,
     sample_fs_empty_template).
Proof. reflexivity. Qed.

Lemma plain_secret_rejects_every_login_witness :
  admin (load_settings (H := sample_hashing) sample_env)
    (mk_request POST [(py "password", py "admin123")]) sample_fs
  = render_admin (Some (py "Invalid password.")) None false.
Proof.
  apply (plain_secret_rejects_every_login (H := sample_hashing)
           sample_env (py "admin123")).
  - reflexivity.
  - discriminate.
  - reflexivity.
  - reflexivity.
Defined.

(* ================================================================== *)
(** * Part III: further properties of the code                         *)
(* ================================================================== *)

(** ** The wrap loop, line by line *)

Lemma line_of_join_space (g : list pystr) :
  g <> [] -> line_of g = join_space g ++ [SPACE].
Proof.
  induction g as [|w g IH]; [done|]. intros _. rewrite line_of_cons.
  destruct g as [|w' g]; [done|].
  rewrite IH by done. cbn [join_space]. by rewrite <- app_assoc.
Qed.

Lemma strip_line_of (g : list pystr) :
  Forall word_ok g -> g <> [] -> strip (line_of g) = join_space g.
Proof.
  intros Hg Hne. pose proof (line_of_strip g Hg Hne) as E.
  rewrite (line_of_join_space g Hne) in E at 1. by apply app_inv_tail in E.
Qed.

Lemma split_join_space (g : list pystr) :
  Forall word_ok g -> split (join_space g) = g.
Proof.
  intros Hg. destruct (decide (g = [])) as [->|Hne]; [done|].
  by rewrite <- strip_line_of, split_strip, split_line_of.
Qed.

Lemma truthy_line_of (g : list pystr) :
  Forall word_ok g -> truthy (line_of g) = truthy_list g.
Proof.
  destruct 1 as [|w g [Hne _] _]; [done|]. rewrite line_of_cons.
  by destruct w.
Qed.

Section WrapGroups.
Context `{FontMetrics}.

(** The loop over the words of a paragraph followed by the final flush,
    in terms of [wrap_groups]. *)
Lemma wrap_fold_groups ws : forall pend lines,
  Forall word_ok pend -> Forall word_ok ws ->
  (let '(current_line, lines') :=
     fold_left wrap_word ws (line_of pend, lines) in
   if truthy current_line then lines' ++ [strip current_line] else lines')
  = lines ++ map join_space (wrap_groups pend ws).
Proof.
  induction ws as [|w ws IH]; intros pend lines Hpend Hws.
  - cbn [fold_left wrap_groups]. rewrite truthy_line_of by done.
    destruct pend as [|w0 pend]; cbn [truthy_list].
    + by rewrite app_nil_r.
    + by rewrite strip_line_of.
  - inversion Hws as [|? ? Hw Hws']; subst. cbn [fold_left wrap_groups].
    unfold wrap_word at 2.
    replace (line_of pend ++ w ++ py " ") with (line_of (pend ++ [w]))
      by apply line_of_snoc.
    fold (fits (pend ++ [w])). destruct (fits (pend ++ [w])).
    + apply IH; [|done]. apply Forall_app; split; [done|]. by constructor.
    + rewrite truthy_line_of by done.
      change (w ++ py " ") with (w ++ SPACE :: line_of []).
      rewrite <- line_of_cons.
      destruct pend as [|w0 pend]; cbn [truthy_list].
      * apply IH; [by constructor|done].
      * rewrite IH by (by constructor || done).
        rewrite strip_line_of by done. cbn [map]. by rewrite <- app_assoc.
Qed.

Lemma wrap_paragraph_groups (lines : list pystr) (paragraph : pystr) :
  wrap_paragraph lines paragraph
  = lines ++ map join_space (wrap_groups [] (split paragraph)).
Proof.
  unfold wrap_paragraph.
  apply (wrap_fold_groups (split paragraph) [] lines); [constructor|apply split_ok].
Qed.

Lemma wrap_groups_ok ws : forall pend,
  Forall word_ok pend -> Forall word_ok ws ->
  Forall (fun g => g <> [] /\ Forall word_ok g) (wrap_groups pend ws).
Proof.
  induction ws as [|w ws IH]; intros pend Hpend Hws; cbn [wrap_groups].
  - destruct pend; [constructor|]. constructor; [by split|constructor].
  - inversion Hws as [|? ? Hw Hws']; subst.
    assert (Forall word_ok (pend ++ [w])) as Hext.
    { apply Forall_app; split; [done|]. by constructor. }
    destruct (fits (pend ++ [w])); [by apply IH|].
    destruct pend as [|w0 pend].
    + apply IH; [by constructor|done].
    + constructor; [done|]. apply IH; [by constructor|done].
Qed.

Lemma wrap_groups_concat ws : forall pend,
  concat (wrap_groups pend ws) = pend ++ ws.
Proof.
  induction ws as [|w ws IH]; intros pend; cbn [wrap_groups].
  - destruct pend; simpl; by rewrite ?app_nil_r.
  - destruct (fits (pend ++ [w])).
    + by rewrite IH, <- app_assoc.
    + destruct pend as [|w0 pend]; cbn [concat]; by rewrite IH.
Qed.

Lemma wrap_groups_head ws : forall pend,
  pend <> [] -> exists ext rest, wrap_groups pend ws = (pend ++ ext) :: rest.
Proof.
  induction ws as [|w ws IH]; intros pend Hne; cbn [wrap_groups].
  - destruct pend; [done|]. exists [], []. by rewrite app_nil_r.
  - destruct (fits (pend ++ [w])).
    + destruct (IH (pend ++ [w])) as (ext & rest & ->); [by destruct pend|].
      exists (w :: ext), rest. by rewrite <- app_assoc.
    + destruct pend; [done|]. eexists [], _. by rewrite app_nil_r.
Qed.

(** A new line is begun only by a word that did not fit. *)
Lemma wrap_groups_greedy ws : forall pend pre g1 g2 post,
  wrap_groups pend ws = pre ++ g1 :: g2 :: post ->
  exists w rest, g2 = w :: rest /\ fits (g1 ++ [w]) = false.
Proof.
  induction ws as [|w ws IH]; intros pend pre g1 g2 post; cbn [wrap_groups].
  - destruct pend; intros E; apply (f_equal length) in E;
      rewrite length_app in E; simpl in E; lia.
  - destruct (fits (pend ++ [w])) eqn:Hfit; [apply IH|].
    destruct pend as [|w0 pend]; [apply IH|].
    destruct pre as [|g pre]; cbn [app].
    + intros [= <- E].
      destruct (wrap_groups_head ws [w]) as (ext & rest & E'); [done|].
      rewrite E' in E. injection E as <- _. by exists w, ext.
    + intros [= _ E]. by apply IH in E.
Qed.

End WrapGroups.

(** The exact metrics give every text at least the width of each of its
    segments, provided no character has a negative width. *)
Lemma widths_sum_nonneg glyph_width f text :
  (forall c, 0 <= glyph_width f c) -> 0 <= widths_sum glyph_width f text.
Proof.
  intros Hpos. unfold widths_sum. induction text as [|c text IH]; simpl; [done|].
  specialize (Hpos c). lia.
Qed.

Lemma afm_segment_mono glyph_width f size (a b c : pystr) :
  0 <= size -> (forall x, 0 <= glyph_width f x) ->
  (stringWidth (FontMetrics := afm_metrics glyph_width) b f size
   <= stringWidth (FontMetrics := afm_metrics glyph_width) (a ++ b ++ c)
        f size)%Q.
Proof.
  intros Hsize Hpos. unfold stringWidth, afm_metrics.
  apply Qmult_le_compat_r; [|unfold Qle; simpl; lia].
  apply Qmult_le_compat_r; [|done]. rewrite <- Zle_Qle.
  rewrite !widths_sum_app.
  pose proof (widths_sum_nonneg glyph_width f a Hpos).
  pose proof (widths_sum_nonneg glyph_width f c Hpos). lia.
Qed.

Lemma line_of_app (g1 g2 : list pystr) :
  line_of (g1 ++ g2) = line_of g1 ++ line_of g2.
Proof. unfold line_of. by rewrite map_app, concat_app. Qed.

Lemma line_of_one (w : pystr) : line_of [w] = w ++ py " ".
Proof. unfold line_of. simpl. by rewrite app_nil_r. Qed.

Lemma length_concat_nonempty {A} (G : list (list A)) :
  Forall (fun g => g <> []) G -> (length G <= length (concat G))%nat.
Proof.
  induction 1 as [|g G Hg _ IH]; simpl; [done|].
  rewrite length_app. destruct g; [done|]. simpl. lia.
Qed.

Section WrapLines.
Context `{FontMetrics}.

Lemma fits_true (g : list pystr) :
  fits g = true
  <-> (stringWidth (line_of g) Helvetica 12 < inject_Z max_width)%Q.
Proof. apply Qltb_lt. Qed.

Lemma fits_false (g : list pystr) :
  fits g = false
  <-> (inject_Z max_width <= stringWidth (line_of g) Helvetica 12)%Q.
Proof.
  rewrite <- not_true_iff_false, fits_true. split.
  - apply Qnot_lt_le.
  - intros Hle Hlt. by apply (Qlt_irrefl (inject_Z max_width)), (Qle_lt_trans _ _ _ Hle).
Qed.

Lemma wrap_message_groups (message : pystr) :
  wrap_message message
  = concat (map (fun paragraph =>
                   map join_space (wrap_groups [] (split paragraph)))
              (splitlines message)).
Proof.
  unfold wrap_message. rewrite wrap_paragraphs_fold. cbn [app]. f_equal.
  apply map_ext. intros paragraph. by rewrite wrap_paragraph_groups.
Qed.

(** X1: inside a paragraph a new line is begun only when needed: the
    first word of a line, appended with its space to the line before and
    that line's space, is not narrower than [max_width]. *)
Theorem wrap_breaks_only_when_needed
    (paragraph : pystr) (pre : list pystr) (l1 l2 : pystr) (post : list pystr) :
  wrap_paragraph [] paragraph = pre ++ l1 :: l2 :: post ->
  exists w rest,
    split l2 = w :: rest
    /\ (inject_Z max_width
        <= stringWidth (l1 ++ py " " ++ w ++ py " ") Helvetica 12)%Q.
Proof.
  rewrite wrap_paragraph_groups. cbn [app]. intros E.
  apply fmap_app_inv in E as (Gpre & G & _ & E & EG).
  symmetry in E. apply fmap_cons_inv in E as (g1 & G' & -> & E & ->).
  symmetry in E. apply fmap_cons_inv in E as (g2 & Gpost & -> & _ & ->).
  pose proof (wrap_groups_ok (split paragraph) [] (Forall_nil_2 _)
                (split_ok paragraph)) as Hok.
  rewrite EG in Hok. apply Forall_app in Hok as [_ Hok].
  inversion Hok as [|? ? [Hne1 Hg1] Hok']; subst.
  inversion Hok' as [|? ? [Hne2 Hg2] _]; subst.
  destruct (wrap_groups_greedy _ _ _ _ _ _ EG) as (w & rest & -> & Hfit).
  exists w, rest. split; [by apply split_join_space|].
  apply fits_false in Hfit.
  rewrite line_of_app, line_of_one, (line_of_join_space g1 Hne1) in Hfit.
  by rewrite <- app_assoc in Hfit.
Qed.

(** X3: every wrapped line holds at least one word and is its words
    joined by single spaces, without whitespace at either end; and there
    are no more lines than the message has words. *)
Theorem wrapped_lines_normal (message : pystr) :
  Forall (fun line => split line <> [] /\ line = join_space (split line))
    (wrap_message message)
  /\ (length (wrap_message message)
      <= length (concat (map split (splitlines message))))%nat.
Proof.
  rewrite wrap_message_groups.
  induction (splitlines message) as [|paragraph ps [IH1 IH2]];
    [by split; [constructor|]|].
  cbn [map concat].
  pose proof (wrap_groups_ok (split paragraph) [] (Forall_nil_2 _)
                (split_ok paragraph)) as Hok.
  split.
  - apply Forall_app; split; [|done].
    apply Forall_fmap. eapply Forall_impl; [exact Hok|].
    intros g [Hne Hg]. cbn. rewrite split_join_space by done. by split.
  - rewrite !length_app, length_map.
    assert (length (wrap_groups [] (split paragraph))
            <= length (split paragraph))%nat.
    { rewrite <- (wrap_groups_concat (split paragraph) []) at 2.
      apply length_concat_nonempty.
      eapply Forall_impl; [exact Hok|]. by intros g []. }
    lia.
Qed.

(** A text is at least as wide as each of its segments. *)
Hypothesis segment_mono : forall a b c : pystr,
  (stringWidth b Helvetica 12 <= stringWidth (a ++ b ++ c) Helvetica 12)%Q.

Lemma fits_member (g : list pystr) (w : pystr) :
  w ∈ g -> fits g = true -> fits [w] = true.
Proof.
  intros (g1 & g2 & ->)%list_elem_of_split. rewrite !fits_true.
  change (w :: g2) with ([w] ++ g2). rewrite !line_of_app.
  intros Hfit. eapply Qle_lt_trans; [|exact Hfit]. apply segment_mono.
Qed.

Lemma fits_prefix (g1 g2 : list pystr) :
  fits (g1 ++ g2) = true -> fits g1 = true.
Proof.
  rewrite !fits_true, line_of_app. intros Hfit.
  eapply Qle_lt_trans; [|exact Hfit]. apply (segment_mono []).
Qed.

Lemma wrap_groups_wide ws : forall pend,
  (forall w, w ∈ pend -> fits [w] = false -> pend = [w]) ->
  Forall (fun g => forall w, w ∈ g -> fits [w] = false -> g = [w])
    (wrap_groups pend ws).
Proof.
  induction ws as [|w ws IH]; intros pend Hpend; cbn [wrap_groups].
  - destruct pend; [constructor|]. by repeat constructor.
  - destruct (fits (pend ++ [w])) eqn:Hfit.
    + apply IH. intros w0 Hin Hwide.
      by rewrite (fits_member _ _ Hin Hfit) in Hwide.
    + assert (forall w0, w0 ∈ [w] -> fits [w0] = false -> [w] = [w0]) as Hone.
      { by intros w0 ->%list_elem_of_singleton. }
      destruct pend as [|w0 pend]; [by apply IH|].
      constructor; [done|]. by apply IH.
Qed.

(** X2: a word that is too wide for the box even alone (with its space)
    is never cut and never shares its line: the line holding it is the
    word itself. *)
Theorem wide_word_alone (message : pystr) :
  Forall
    (fun line =>
       forall w, w ∈ split line ->
         (inject_Z max_width <= stringWidth (w ++ py " ") Helvetica 12)%Q ->
         line = w)
    (wrap_message message).
Proof.
  rewrite wrap_message_groups. apply Forall_concat, Forall_fmap, Forall_forall.
  intros paragraph _. cbn.
  pose proof (wrap_groups_ok (split paragraph) [] (Forall_nil_2 _)
                (split_ok paragraph)) as Hok.
  assert (Forall
            (fun g => (g <> [] /\ Forall word_ok g)
                      /\ (forall w, w ∈ g -> fits [w] = false -> g = [w]))
            (wrap_groups [] (split paragraph))) as Hboth.
  { apply Forall_and. split; [exact Hok|].
    apply wrap_groups_wide. by intros w ?%elem_of_nil. }
  apply Forall_fmap. eapply Forall_impl; [exact Hboth|].
  intros g [[Hne Hg] Hg'] w Hin Hw. cbn in *.
  rewrite split_join_space in Hin by done.
  rewrite (Hg' w Hin); [done|]. apply fits_false. by rewrite line_of_one.
Qed.

Lemma wrap_groups_fitting ws : forall pend,
  pend ++ ws <> [] -> fits (pend ++ ws) = true ->
  wrap_groups pend ws = [pend ++ ws].
Proof.
  induction ws as [|w ws IH]; intros pend Hne Hfit; cbn [wrap_groups].
  - rewrite app_nil_r in *. by destruct pend.
  - assert (fits (pend ++ [w]) = true) as ->.
    { apply (fits_prefix _ ws). by rewrite <- app_assoc. }
    rewrite IH; rewrite <- ?app_assoc; [done| |done]. by destruct pend.
Qed.

(** X4: a paragraph whose words, joined by single spaces and followed by
    one space, are narrower than [max_width] is kept on one line. *)
Theorem fitting_paragraph_one_line (paragraph : pystr) :
  split paragraph <> [] ->
  (stringWidth (join_space (split paragraph) ++ py " ") Helvetica 12
   < inject_Z max_width)%Q ->
  wrap_paragraph [] paragraph = [join_space (split paragraph)].
Proof.
  intros Hne Hfit. rewrite wrap_paragraph_groups. cbn [app].
  rewrite wrap_groups_fitting; [done|done|].
  apply fits_true. by rewrite line_of_join_space.
Qed.

End WrapLines.

(** ** An accepted message has lines *)

Lemma is_linebreak_isspace (c : char) :
  is_linebreak c = true -> isspace c = true.
Proof.
  unfold is_linebreak, isspace.
  rewrite !orb_true_iff, !andb_true_iff, !N.leb_le, !N.eqb_eq. lia.
Qed.

Lemma rstrip_nonspace (s : pystr) :
  rstrip s <> [] -> exists c, c ∈ rstrip s /\ isspace c = false.
Proof.
  unfold rstrip. induction s as [|c s IH]; [done|]. cbn [rstrip_chars].
  destruct (rstrip_chars isspace s) as [|r rs] eqn:E.
  - destruct (isspace c) eqn:Hc; [done|]. intros _. exists c.
    split; [apply list_elem_of_here|done].
  - intros _. destruct IH as (x & Hin & Hx); [done|].
    exists x. split; [by apply list_elem_of_further|done].
Qed.

Lemma split_from_pending (s : pystr) : forall cur,
  cur <> [] -> split_from cur s <> [].
Proof.
  induction s as [|c s IH]; intros cur Hne; cbn [split_from].
  - by apply truthy_true in Hne as ->.
  - destruct (isspace c).
    + by apply truthy_true in Hne as ->.
    + apply IH. by destruct cur.
Qed.

Lemma split_from_nonspace_char (c : char) (s : pystr) : forall cur,
  c ∈ s -> isspace c = false -> split_from cur s <> [].
Proof.
  induction s as [|x s IH]; intros cur Hin Hc; [by apply elem_of_nil in Hin|].
  cbn [split_from]. destruct (isspace x) eqn:Hx.
  - apply elem_of_cons in Hin as [->|Hin]; [congruence|].
    destruct (truthy cur); [done|]. by apply IH.
  - apply split_from_pending. by destruct cur.
Qed.

(** Every character that is not a line boundary lands in a paragraph. *)
Lemma splitlines_from_covers (c : char) (s : pystr) : forall after_cr cur,
  c ∈ cur \/ c ∈ s -> is_linebreak c = false ->
  exists paragraph, paragraph ∈ splitlines_from after_cr cur s /\ c ∈ paragraph.
Proof.
  induction s as [|x s IH]; intros after_cr cur Hin Hc; cbn [splitlines_from].
  - destruct Hin as [Hin|Hin]; [|by apply elem_of_nil in Hin].
    destruct cur as [|y cur]; [by apply elem_of_nil in Hin|].
    exists (y :: cur). split; [apply list_elem_of_here|done].
  - assert (is_linebreak x = true -> c ∈ cur \/ c ∈ s) as Hskip.
    { intros Hx. destruct Hin as [Hin|Hin]; [by left|].
      apply elem_of_cons in Hin as [->|Hin]; [congruence|by right]. }
    destruct (after_cr && (x =? LF)%N) eqn:Hlf.
    { apply andb_prop in Hlf as [_ ->%N.eqb_eq]. apply IH; [|done].
      by apply Hskip. }
    destruct (is_linebreak x) eqn:Hx.
    + destruct (Hskip eq_refl) as [Hcur|Hs].
      * exists cur. split; [apply list_elem_of_here|done].
      * destruct (IH (x =? CR)%N [] (or_intror Hs) Hc) as (p & Hp & Hcp).
        exists p. split; [by apply list_elem_of_further|done].
    + apply IH; [|done]. destruct Hin as [Hin|Hin].
      * left. apply elem_of_app. by left.
      * apply elem_of_cons in Hin as [->|Hin]; [|by right].
        left. apply elem_of_app. right. apply list_elem_of_here.
Qed.

Section AcceptedMessage.
Context `{FontMetrics} `{FloatArith}.

Lemma wrap_message_nonempty (message : pystr) (c : char) :
  c ∈ message -> isspace c = false -> wrap_message message <> [].
Proof.
  intros Hin Hc.
  destruct (splitlines_from_covers c message false [] (or_intror Hin))
    as (paragraph & Hp & Hcp).
  { destruct (is_linebreak c) eqn:E; [|done].
    apply is_linebreak_isspace in E. congruence. }
  unfold wrap_message. rewrite wrap_paragraphs_fold. cbn [app].
  fold (splitlines message) in Hp.
  apply list_elem_of_split in Hp as (ps1 & ps2 & ->).
  rewrite map_app, concat_app. cbn [map concat].
  destruct (wrap_paragraph_words paragraph) as (produced & Hcat & Hlines).
  rewrite (Hlines []). cbn [app].
  destruct produced as [|line produced].
  - exfalso. cbn in Hcat. symmetry in Hcat. revert Hcat.
    by apply split_from_nonspace_char with c.
  - intros E. apply (f_equal length) in E. rewrite !length_app in E.
    simpl in E. lia.
Qed.

(** X5: for a message that passed the checks of [index] (trimmed and not
    empty) the wrap gives at least one line, so the fallback [name_y = 200]
    is never taken: the overlay is the first [k] wrapped lines, [k] between
    1 and 26, at [x = 230] in Helvetica 12, followed by the signature
    [- name] in Helvetica-Bold 14, at the [x] that the two float
    subtractions [message_right - name_width - 10] give, 25 points below
    the last drawn line, at a height between 225 and 675. *)
Theorem overlay_of_accepted_message
    (page_size : Q * Q) (name raw : pystr) :
  let message := strip raw in
  message <> [] ->
  let shown := slice_to max_lines (wrap_message message) in
  let name_text := py "- " ++ name in
  let name_y := message_top - (len_list shown - 1) * line_height - 25 in
  (1 <= length shown <= 26)%nat
  /\ 225 <= name_y <= 675
  /\ drawn (draw_overlay page_size name message)
     = imap (fun i line =>
               mk_draw (inject_Z message_left)
                 (inject_Z (message_top - Z.of_nat i * line_height))
                 line Helvetica 12 (py "#2C3E50"))
         shown
       ++ [mk_draw
             (float_sub
                (float_sub (inject_Z message_right)
                   (stringWidth name_text Helvetica_Bold 14)) 10)
             (inject_Z name_y) name_text Helvetica_Bold 14 (py "#2C3E50")].
Proof.
  intros message Hne shown name_text name_y.
  assert (wrap_message message <> []) as Hlines.
  { destruct (rstrip_nonspace (lstrip raw) Hne) as (c & Hin & Hc).
    by apply (wrap_message_nonempty message c). }
  assert (1 <= length shown <= 26)%nat as Hlen.
  { unfold shown, slice_to. rewrite length_take.
    change (Z.to_nat max_lines) with 26%nat.
    destruct (wrap_message message); [done|]. cbn [length]. lia. }
  split; [done|]. split.
  { unfold name_y, len_list, message_top, line_height. lia. }
  unfold draw_overlay. fold message.
  assert (truthy_list (wrap_message message) = true) as ->
    by (by destruct (wrap_message message)).
  fold shown. fold name_text. fold name_y.
  change 0 with (Z.of_nat 0).
  rewrite draw_lines_within
    by (change (Z.to_nat max_lines) with 26%nat; simpl; lia).
  reflexivity.
Qed.

End AcceptedMessage.

(** ** The card store *)

Section StoreLemmas.
Import PosixPath FS.

Let nonsep (c : char) : Prop := (c =? sep)%N = false.

Lemma head_of_nonsep (p : pystr) : Forall nonsep p -> head_of p = [].
Proof.
  induction 1 as [|c p Hc _ IH]; cbn [head_of]; [done|]. by rewrite IH, Hc.
Qed.

Lemma nonsep_relative (name : pystr) :
  Forall nonsep name -> startswith name [sep] = false.
Proof. destruct 1 as [|c name Hc _]; [done|]. cbn. by rewrite Hc. Qed.

(** A name without separator passes the directory test of [delete_card]. *)
Lemma dirname_card (name : pystr) :
  Forall nonsep name ->
  join CARDS_FOLDER name = CARDS_FOLDER ++ sep :: name
  /\ dirname (CARDS_FOLDER ++ sep :: name) = CARDS_FOLDER.
Proof.
  intros Hname. split; [by apply join_relative, nonsep_relative|].
  unfold dirname.
  rewrite (head_of_app CARDS_FOLDER (sep :: name))
    by (rewrite head_of_sep; done).
  rewrite head_of_sep, head_of_nonsep by done. reflexivity.
Qed.

Lemma isfile_exists (fs : t) (path : pystr) :
  isfile fs path = true -> exists_ fs path = true.
Proof. unfold isfile, exists_. by destruct (stat fs path). Qed.

Lemma entry_of_inv (d k : key) (n : pystr) :
  entry_of d k = Some n -> k = d ++ [n].
Proof.
  unfold entry_of. destruct (last k) as [x|] eqn:Hlast; [|done].
  apply last_Some in Hlast as [k' ->]. rewrite removelast_last.
  case_bool_decide; [|done]. by intros [= <-]; subst.
Qed.

Lemma NoDup_entries (d : key) (l : list (key * node)) :
  NoDup (l.*1) -> NoDup (omap (fun kv => entry_of d (fst kv)) l).
Proof.
  induction l as [|kv l IH]; [constructor|]. cbn [fmap list_fmap omap list_omap].
  intros [Hnotin Hnodup]%NoDup_cons.
  destruct (entry_of d kv.1) as [n|] eqn:E; [|by apply IH].
  apply NoDup_cons. split; [|by apply IH].
  intros (kv' & Hin & E')%list_elem_of_omap. apply Hnotin.
  apply entry_of_inv in E, E'. rewrite E, <- E'.
  apply list_elem_of_fmap. by exists kv'.
Qed.

(** What [os.listdir] returns: each entry of the directory once. *)
Lemma listdir_elem (fs : t) (path : pystr) (names : list pystr) :
  listdir fs path = Ok names ->
  exists d,
    resolve fs path = Ok d /\ node_at fs d = Some Dir /\ NoDup names
    /\ forall n, n ∈ names <-> is_Some (nodes fs !! (d ++ [n])).
Proof.
  unfold listdir. destruct (resolve fs path) as [d|e]; [|done].
  destruct (node_at fs d) as [[|]|] eqn:Hdir; [done| |done].
  intros [= <-]. exists d. split_and!; [done|done| |].
  - apply NoDup_entries, NoDup_fst_map_to_list.
  - intros n. rewrite list_elem_of_omap. split.
    + intros ([k x] & Hin & E). apply entry_of_inv in E. cbn in E. subst k.
      apply elem_of_map_to_list in Hin. by exists x.
    + intros [x Hx]. exists (d ++ [n], x). split.
      * by apply elem_of_map_to_list.
      * apply entry_of_snoc.
Qed.

Lemma list_cards_elem (fs : t) (cards : list pystr) :
  list_cards fs = Return cards ->
  exists d,
    resolve fs CARDS_FOLDER = Ok d /\ node_at fs d = Some Dir
    /\ StronglySorted PyStr.le cards /\ NoDup cards
    /\ forall f, f ∈ cards
         <-> endswith f (py ".pdf") = true /\ is_Some (nodes fs !! (d ++ [f])).
Proof.
  unfold list_cards. destruct (listdir fs CARDS_FOLDER) as [names|e] eqn:E; [|done].
  intros Heq. injection Heq as <-.
  apply listdir_elem in E as (d & Hd & Hdir & Hnodup & Helem).
  exists d. split_and!; [done|done| | |].
  - apply StronglySorted_merge_sort; apply _.
  - unfold sorted. rewrite merge_sort_Permutation.
    apply NoDup_ListNoDup, List.NoDup_filter. by apply NoDup_ListNoDup.
  - intros f. unfold sorted. rewrite merge_sort_Permutation.
    rewrite list_elem_of_In, filter_In, <- list_elem_of_In, Helem. tauto.
Qed.

Lemma list_cards_exists (fs : t) (d : key) :
  resolve fs CARDS_FOLDER = Ok d -> node_at fs d = Some Dir ->
  exists cards, list_cards fs = Return cards.
Proof.
  intros Hd Hdir. unfold list_cards, listdir. rewrite Hd, Hdir. by eexists.
Qed.

(** A change below the managed directory does not move the directory. *)
Lemma resolve_cards_frame (fs : t) (m' : gmap (list pystr) node) (k : key) :
  (length (cwd fs) + 3 <= length k)%nat ->
  (forall j, j <> k -> m' !! j = nodes fs !! j) ->
  resolve (mk m' (cwd fs)) CARDS_FOLDER = resolve fs CARDS_FOLDER
  /\ node_at (mk m' (cwd fs)) (cwd fs ++ [py "static"; py "cards"])
     = node_at fs (cwd fs ++ [py "static"; py "cards"]).
Proof.
  intros Hlen Hsame.
  assert (forall j, (length j < length k)%nat ->
                    node_at (mk m' (cwd fs)) j = node_at fs j) as Hnode.
  { intros j Hj. destruct j as [|x j]; [done|]. unfold node_at. cbn [nodes].
    apply Hsame. intros E. rewrite E in Hj. lia. }
  split.
  - rewrite !resolve_cards. cbn [cwd].
    rewrite !Hnode; [done|rewrite ?length_app; simpl; lia..].
  - apply Hnode. rewrite length_app. simpl. lia.
Qed.

(** Looking up a name in the managed directory. *)
Lemma stat_card (fs : t) (name : pystr) (d : key) :
  Forall nonsep name -> is_dot name = false -> is_dotdot name = false ->
  byte_length name <= NAME_MAX ->
  resolve fs CARDS_FOLDER = Ok d -> node_at fs d = Some Dir ->
  stat fs (CARDS_FOLDER ++ sep :: name)
  = match nodes fs !! (d ++ [name]) with
    | Some n => Ok n
    | None => Error ENOENT
    end.
Proof.
  intros Hname Hdot Hdd Hshort Hd Hdir. unfold stat.
  rewrite resolve_card, (card_path_short name Hshort), Hd by done. cbn [walk].
  apply Z.ltb_ge in Hshort.
  by rewrite Hdir, Hdot, Hdd, Hshort, node_at_snoc.
Qed.

(** What [delete_card] does to a regular file of the managed directory. *)
Lemma delete_card_file (fs : t) (name : pystr) :
  Forall nonsep name ->
  isfile fs (join CARDS_FOLDER name) = true ->
  delete_card name fs
  = (redirect (py "admin"),
     mk (delete ((cwd fs ++ [py "static"; py "cards"]) ++ [name]) (nodes fs))
       (cwd fs)).
Proof.
  intros Hname. destruct (dirname_card name Hname) as [Hjoin Hdir].
  unfold delete_card. rewrite Hjoin. intros Hfile.
  rewrite (isfile_exists _ _ Hfile), Hfile, Hdir.
  unfold PyStr.eqb. rewrite bool_decide_eq_true_2 by done. cbn [andb].
  by rewrite (remove_card fs name Hname Hfile).
Qed.

(** The listing after a card has been removed. *)
Lemma list_cards_delete (fs : t) (name : pystr) (cards : list pystr) :
  Forall nonsep name ->
  isfile fs (CARDS_FOLDER ++ sep :: name) = true ->
  list_cards fs = Return cards ->
  exists cards',
    list_cards
      (mk (delete ((cwd fs ++ [py "static"; py "cards"]) ++ [name]) (nodes fs))
         (cwd fs))
    = Return cards'
    /\ forall f, f ∈ cards' <-> f ∈ cards /\ f <> name.
Proof.
  intros Hname Hfile Hcards.
  destruct (isfile_card_inv fs name Hname Hfile) as (Hd & Hdir & _).
  set (k := (cwd fs ++ [py "static"; py "cards"]) ++ [name]).
  destruct (resolve_cards_frame fs (delete k (nodes fs)) k) as [Hd' Hdir'].
  { unfold k. rewrite !length_app. simpl. lia. }
  { intros j Hj. by apply lookup_delete_ne. }
  rewrite Hd in Hd'. rewrite Hdir in Hdir'.
  destruct (list_cards_exists _ _ Hd' Hdir') as [cards' Hcards'].
  exists cards'. split; [done|]. intros f.
  apply list_cards_elem in Hcards as (d0 & Hd0 & _ & _ & _ & Helem).
  apply list_cards_elem in Hcards' as (d1 & Hd1 & _ & _ & _ & Helem').
  rewrite Hd in Hd0. rewrite Hd' in Hd1.
  injection Hd0 as <-. injection Hd1 as <-.
  rewrite Helem, Helem'. cbn [nodes].
  destruct (decide (f = name)) as [->|Hne].
  - fold k. rewrite lookup_delete_eq. split; [by intros [_ []]|by intros [_ []]].
  - rewrite lookup_delete_ne; [tauto|]. unfold k. by intros ?%app_inv_head; simplify_eq.
Qed.

End StoreLemmas.

(** X7: when the listing of the cards succeeds, it is sorted, free of
    repetitions, and holds exactly the names ending in [.pdf] of the
    entries of the directory [CARDS_FOLDER] leads to (files and
    directories alike). *)
Theorem cards_listing (fs : FS.t) (cards : list pystr) :
  list_cards fs = Return cards ->
  exists d,
    FS.resolve fs CARDS_FOLDER = FS.Ok d
    /\ FS.node_at fs d = Some FS.Dir
    /\ StronglySorted PyStr.le cards
    /\ NoDup cards
    /\ forall f, f ∈ cards
         <-> endswith f (py ".pdf") = true
             /\ is_Some (FS.nodes fs !! (d ++ [f])).
Proof.
  unfold list_cards.
  destruct (FS.listdir fs CARDS_FOLDER) as [names|e] eqn:E; [|done].
  intros Heq. injection Heq as <-.
  apply listdir_elem in E as (d & Hd & Hdir & Hnodup & Helem).
  exists d. split_and!; [done|done| | |].
  - apply StronglySorted_merge_sort; apply _.
  - unfold sorted. rewrite merge_sort_Permutation.
    apply NoDup_ListNoDup, List.NoDup_filter. by apply NoDup_ListNoDup.
  - intros f. unfold sorted. rewrite merge_sort_Permutation.
    rewrite list_elem_of_In, filter_In, <- list_elem_of_In, Helem. tauto.
Qed.

(** X8: deleting a regular file of the managed directory by its name
    takes exactly that name out of the listing. *)
Theorem delete_card_unlists (filename : pystr) (fs : FS.t) (cards : list pystr) :
  PosixPath.sep ∉ filename ->
  FS.isfile fs (PosixPath.join CARDS_FOLDER filename) = true ->
  list_cards fs = Return cards ->
  exists cards',
    list_cards (snd (delete_card filename fs)) = Return cards'
    /\ forall f, f ∈ cards' <-> f ∈ cards /\ f <> filename.
Proof.
  intros Hsep Hfile Hcards.
  assert (Forall (fun c => (c =? PosixPath.sep)%N = false) filename) as Hname.
  { apply Forall_forall. intros c Hc. apply N.eqb_neq. by intros ->. }
  rewrite (delete_card_file fs filename Hname Hfile). cbn [snd].
  apply list_cards_delete; [done| |done].
  by rewrite <- (proj1 (dirname_card filename Hname)).
Qed.

(** ** What a submission does to the store *)

Section WriteLemmas.
Import PosixPath FS.

Let nonsep (c : char) : Prop := (c =? sep)%N = false.

Lemma output_path_eq (name : pystr) :
  join CARDS_FOLDER (output_filename_of name)
  = CARDS_FOLDER ++ sep :: output_filename_of name.
Proof. apply dirname_card, output_filename_nonsep. Qed.

Lemma output_filename_not_dots (name : pystr) :
  is_dot (output_filename_of name) = false
  /\ is_dotdot (output_filename_of name) = false.
Proof.
  apply long_name_not_dots. pose proof (output_filename_length name). lia.
Qed.

(** [open(path, "wb")] for a name of the managed directory. *)
Lemma open_wb_card_eq (fs : t) (name : pystr) :
  Forall nonsep name ->
  open_wb fs (CARDS_FOLDER ++ sep :: name)
  = if PATH_MAX <=? byte_length (CARDS_FOLDER ++ sep :: name)
    then Error ENAMETOOLONG
    else
    match resolve fs CARDS_FOLDER with
    | Error e => Error e
    | Ok d =>
        match node_at fs d with
        | None => Error ENOENT
        | Some (File _) => Error ENOTDIR
        | Some Dir =>
            if is_dot name || is_dotdot name then Error EISDIR
            else if NAME_MAX <? byte_length name then Error ENAMETOOLONG
            else
              match node_at fs (d ++ [name]) with
              | Some Dir => Error EISDIR
              | _ => Ok (d ++ [name],
                         mk (<[d ++ [name] := File []]> (nodes fs)) (cwd fs))
              end
        end
    end.
Proof.
  intros Hname. unfold open_wb.
  change (truthy (CARDS_FOLDER ++ sep :: name)) with true. cbv iota.
  destruct (PATH_MAX <=? byte_length (CARDS_FOLDER ++ sep :: name)); [done|].
  rewrite components_card by done.
  change (last [py "static"; py "cards"; name]) with (Some name).
  change (removelast [py "static"; py "cards"; name])
    with [py "static"; py "cards"].
  change (walk fs (start_of fs (CARDS_FOLDER ++ sep :: name))
            [py "static"; py "cards"])
    with (resolve fs CARDS_FOLDER).
  done.
Qed.

(** The file just written, seen through its path. *)
Lemma stat_after_write (fs : t) (name : pystr) (data : list N) :
  let d := cwd fs ++ [py "static"; py "cards"] in
  Forall nonsep name -> is_dot name = false -> is_dotdot name = false ->
  byte_length name <= NAME_MAX ->
  resolve fs CARDS_FOLDER = Ok d ->
  node_at fs d = Some Dir ->
  stat (mk (<[d ++ [name] := File data]> (nodes fs)) (cwd fs))
    (CARDS_FOLDER ++ sep :: name)
  = Ok (File data).
Proof.
  intros d Hname Hdot Hdd Hshort Hd Hdir.
  destruct (resolve_cards_frame fs (<[d ++ [name] := File data]> (nodes fs))
              (d ++ [name])) as [Hd' Hdir'].
  { unfold d. rewrite !length_app. simpl. lia. }
  { intros j Hj. by apply lookup_insert_ne. }
  fold d in Hdir'. rewrite Hd in Hd'. rewrite Hdir in Hdir'.
  rewrite (stat_card _ name d) by done. cbn [nodes].
  by rewrite lookup_insert_eq.
Qed.

Lemma read_after_write (fs : t) (name : pystr) (data : list N) :
  let d := cwd fs ++ [py "static"; py "cards"] in
  Forall nonsep name -> is_dot name = false -> is_dotdot name = false ->
  byte_length name <= NAME_MAX ->
  resolve fs CARDS_FOLDER = Ok d ->
  node_at fs d = Some Dir ->
  read (write (mk (<[d ++ [name] := File []]> (nodes fs)) (cwd fs))
          (d ++ [name]) data)
    (CARDS_FOLDER ++ sep :: name)
  = Ok data.
Proof.
  intros d Hname Hdot Hdd Hshort Hd Hdir. unfold write, read. cbn [nodes cwd].
  rewrite insert_insert_eq.
  pose proof (stat_after_write fs name data Hname Hdot Hdd Hshort Hd Hdir)
    as Hstat.
  match goal with
  | |- match ?X with _ => _ end = _ =>
      replace X with (Ok (File data)) by (symmetry; exact Hstat)
  end.
  done.
Qed.

End WriteLemmas.

Section SubmissionProps.
Context `{FontMetrics} `{PdfLibrary} `{FloatArith}.

Lemma invalid_cases (req : request) (fs : FS.t) :
  method req = POST ->
  strip (form_get req (py "name") []) = []
  \/ strip (form_get req (py "message") []) = []
  \/ MAX_MESSAGE_CHARS < len (strip (form_get req (py "message") [])) ->
  exists error, index req fs = (render_index (Some error) None, fs).
Proof.
  intros Hpost Hinvalid. unfold index. rewrite Hpost.
  destruct (negb (truthy _) || negb (truthy _)) eqn:Hboth; [by eexists|].
  apply orb_false_elim in Hboth as [Hn Hm].
  apply negb_false_iff, truthy_true in Hn, Hm.
  destruct Hinvalid as [?|[?|Hlong]]; [done..|].
  apply Z.ltb_lt in Hlong. rewrite Hlong. by eexists.
Qed.

(** The two ways a POST ends: with an error and the store as it was, or
    with the output file opened and holding what the writer delivered. *)
Lemma index_post_outcome (req : request) (fs : FS.t) :
  method req = POST ->
  let name := strip (form_get req (py "name") []) in
  let message := strip (form_get req (py "message") []) in
  let d := FS.cwd fs ++ [py "static"; py "cards"] in
  let k := d ++ [output_filename_of name] in
  (snd (index req fs) = fs
   /\ exists error, fst (index req fs) = render_index (Some error) None)
  \/ (name <> [] /\ message <> [] /\ len message <= MAX_MESSAGE_CHARS
      /\ FS.resolve fs CARDS_FOLDER = FS.Ok d
      /\ FS.node_at fs d = Some FS.Dir
      /\ byte_length (output_filename_of name) <= FS.NAME_MAX
      /\ exists w data failure,
           merged_card name message fs = (Return w, fs)
           /\ writer_write w = (data, failure)
           /\ index req fs
              = (match failure with
                 | None => redirect (py "index")
                 | Some e =>
                     render_index
                       (Some (if is_FileNotFoundError e
                              then TemplateNotFound TEMPLATE_PATH
                              else GeneratingPDF e)) None
                 end,
                 FS.mk (<[k := FS.File data]> (FS.nodes fs)) (FS.cwd fs))).
Proof.
  intros Hpost name message d k.
  destruct (index_post_cases req fs Hpost) as [(Hn & Hm & Hlen)|[Hinvalid Hsame]].
  2: { left. split; [done|].
       destruct (invalid_cases req fs Hpost Hinvalid) as [error E].
       exists error. by rewrite E. }
  rewrite (index_accepts req fs Hpost Hn Hm Hlen). fold name message.
  rewrite output_path_eq. unfold write_card, bind.
  destruct (merged_card name message fs) as [[w|e] fs0] eqn:Hmerged.
  2: { apply merged_card_reads_only in Hmerged as ->. left.
       destruct (is_FileNotFoundError e); split; eauto. }
  apply merged_card_reads_only in Hmerged as Hfs. subst fs0.
  unfold open_.
  destruct (fs_converter _) as [e|].
  { left. destruct (is_FileNotFoundError e); split; eauto. }
  rewrite open_wb_card_eq by apply output_filename_nonsep.
  destruct (FS.PATH_MAX <=? _).
  { left. destruct (is_FileNotFoundError _); split; eauto. }
  destruct (FS.resolve fs CARDS_FOLDER) as [d0|e] eqn:Hd.
  2: { left. destruct (is_FileNotFoundError _); split; eauto. }
  apply resolve_cards_inv in Hd as Hd0. destruct Hd0 as (-> & _ & _).
  fold d. destruct (FS.node_at fs d) as [[|]|] eqn:Hdir.
  1,3: left; destruct (is_FileNotFoundError _); split; eauto.
  destruct (output_filename_not_dots name) as [-> ->]. cbn [orb].
  destruct (FS.NAME_MAX <? _) eqn:Hshort.
  { left. destruct (is_FileNotFoundError _); split; eauto. }
  apply Z.ltb_ge in Hshort.
  fold k.
  assert (exists data failure, writer_write w = (data, failure)) as (data & failure & Hw)
    by (destruct (writer_write w); eauto).
  destruct (FS.node_at fs k) as [[|]|] eqn:Hk.
  2: { left. destruct (is_FileNotFoundError _); split; eauto. }
  all: right; split_and!; [done..|]; exists w, data, failure;
    split_and!; [done..|]; rewrite Hw; unfold FS.write; cbn [FS.nodes FS.cwd];
    rewrite insert_insert_eq; by destruct failure as [e|];
    [destruct (is_FileNotFoundError e)|].
Qed.

End SubmissionProps.

Lemma method_post_cases (m : http_method) : m = POST \/ m <> POST.
Proof. destruct m; auto. Qed.

Section SubmissionTheorems.
Context `{FontMetrics} `{PdfLibrary} `{FloatArith}.

Lemma index_other_methods (req : request) (fs : FS.t) :
  method req <> POST -> snd (index req fs) = fs.
Proof.
  intros Hm. unfold index.
  destruct (method req); [| |done]; by destruct (list_cards fs).
Qed.

(** X10: a request to [index] leaves the working directory and every
    stored file and directory as they were, except for the one file in
    the managed directory that is named after the submitted name: the
    template and the other cards are never touched. *)
Theorem index_touches_own_file (req : request) (fs : FS.t) :
  FS.cwd (snd (index req fs)) = FS.cwd fs
  /\ forall k,
       FS.nodes (snd (index req fs)) !! k <> FS.nodes fs !! k ->
       method req = POST
       /\ k = FS.cwd fs
              ++ [py "static"; py "cards";
                  output_filename_of (strip (form_get req (py "name") []))]
       /\ exists data, FS.nodes (snd (index req fs)) !! k = Some (FS.File data).
Proof.
  destruct (method_post_cases (method req)) as [Hpost|Hother].
  2: { rewrite (index_other_methods req fs Hother). by split. }
  destruct (index_post_outcome req fs Hpost)
    as [[-> _]|(_ & _ & _ & _ & _ & _ & w & data & failure & _ & _ & ->)];
    [by split|].
  cbn [snd FS.cwd FS.nodes]. split; [done|]. intros k Hk.
  split; [done|].
  destruct (decide
              (k = (FS.cwd fs ++ [py "static"; py "cards"])
                   ++ [output_filename_of (strip (form_get req (py "name") []))]))
    as [->|Hne].
  - split; [by rewrite <- app_assoc|]. exists data. by rewrite lookup_insert_eq.
  - by rewrite lookup_insert_ne in Hk.
Qed.

(** X11: when a submission is accepted, the file named after it holds
    exactly the bytes the writer delivered for this submission, whatever
    was stored under that name before. *)
Theorem accepted_card_content (req : request) (fs fs' : FS.t) :
  method req = POST ->
  index req fs = (redirect (py "index"), fs') ->
  let name := strip (form_get req (py "name") []) in
  let message := strip (form_get req (py "message") []) in
  exists w data,
    merged_card name message fs = (Return w, fs)
    /\ writer_write w = (data, None)
    /\ FS.read fs' (PosixPath.join CARDS_FOLDER (output_filename_of name))
       = FS.Ok data.
Proof.
  intros Hpost Hindex name message.
  destruct (index_post_outcome req fs Hpost)
    as [[_ [error E]]|(_ & _ & _ & Hd & Hdir & Hshort & w & data & failure & Hw & Hwr & E)].
  { by rewrite Hindex in E. }
  rewrite Hindex in E. destruct failure as [e|]; [done|].
  apply (f_equal snd) in E. cbn [snd] in E.
  exists w, data. split_and!; [done..|].
  destruct (output_filename_not_dots name) as [Hdot Hdd].
  assert (FS.stat fs' (CARDS_FOLDER ++ PosixPath.sep :: output_filename_of name)
          = FS.Ok (FS.File data)) as Hstat.
  { rewrite E.
    exact (stat_after_write fs (output_filename_of name) data
             (output_filename_nonsep name) Hdot Hdd Hshort Hd Hdir). }
  unfold FS.read. by rewrite output_path_eq, Hstat.
Qed.

(** X12: when the writer fails after the output file has been opened, the
    submission is answered with an error, and the file is left holding
    the bytes written up to the failure, in place of whatever card was
    stored under that name. *)
Theorem interrupted_write_leaves_file
    (req : request) (fs fs1 : FS.t) (f : FS.key)
    (w : writer) (data : list N) (e : exn) :
  method req = POST ->
  let name := strip (form_get req (py "name") []) in
  let message := strip (form_get req (py "message") []) in
  let output_path := PosixPath.join CARDS_FOLDER (output_filename_of name) in
  name <> [] -> message <> [] -> len message <= MAX_MESSAGE_CHARS ->
  merged_card name message fs = (Return w, fs) ->
  open_ output_path fs = (Return f, fs1) ->
  writer_write w = (data, Some e) ->
  fst (index req fs)
  = render_index
      (Some (if is_FileNotFoundError e then TemplateNotFound TEMPLATE_PATH
             else GeneratingPDF e)) None
  /\ FS.read (snd (index req fs)) output_path = FS.Ok data.
Proof.
  intros Hpost name message output_path Hn Hm Hlen Hmerged Hopen Hwrite.
  rewrite (index_accepts req fs Hpost Hn Hm Hlen). fold name message output_path.
  unfold write_card, bind. rewrite Hmerged, Hopen, Hwrite.
  unfold output_path in *. rewrite output_path_eq in *.
  unfold open_ in Hopen. destruct (fs_converter _); [done|].
  destruct (FS.open_wb fs _) as [[f0 fs0]|errno] eqn:Hsys; [|done].
  injection Hopen as <- <-.
  apply open_wb_card in Hsys as (Hd & Hdir & -> & -> & Hshort);
    [|apply output_filename_nonsep].
  destruct (output_filename_not_dots name) as [Hdot Hdd].
  split; [by destruct (is_FileNotFoundError e)|].
  assert (forall r1 r2 : response,
             snd (if is_FileNotFoundError e
                  then (r1, FS.write
                              (FS.mk
                                 (<[(FS.cwd fs ++ [py "static"; py "cards"])
                                    ++ [output_filename_of name] := FS.File []]>
                                    (FS.nodes fs)) (FS.cwd fs))
                              ((FS.cwd fs ++ [py "static"; py "cards"])
                               ++ [output_filename_of name]) data)
                  else (r2, FS.write
                              (FS.mk
                                 (<[(FS.cwd fs ++ [py "static"; py "cards"])
                                    ++ [output_filename_of name] := FS.File []]>
                                    (FS.nodes fs)) (FS.cwd fs))
                              ((FS.cwd fs ++ [py "static"; py "cards"])
                               ++ [output_filename_of name]) data))
             = FS.write
                 (FS.mk
                    (<[(FS.cwd fs ++ [py "static"; py "cards"])
                       ++ [output_filename_of name] := FS.File []]>
                       (FS.nodes fs)) (FS.cwd fs))
                 ((FS.cwd fs ++ [py "static"; py "cards"])
                  ++ [output_filename_of name]) data) as Hsnd
    by (intros; by destruct (is_FileNotFoundError e)).
  etrans; [|exact (read_after_write fs (output_filename_of name) data
                     (output_filename_nonsep name) Hdot Hdd Hshort Hd Hdir)].
  f_equal. apply Hsnd.
Qed.

(** X13: when the managed directory does not exist, a submission that
    passes the checks and renders, and whose output path can be handed to
    the operating system (it holds no lone surrogate and no NUL, and is
    shorter than [PATH_MAX] bytes), is answered with the "template not
    found" error, although the template is there; nothing is written. *)
Theorem missing_cards_folder_reported_as_template
    (req : request) (fs : FS.t) (w : writer) :
  method req = POST ->
  let name := strip (form_get req (py "name") []) in
  let message := strip (form_get req (py "message") []) in
  let output_path := PosixPath.join CARDS_FOLDER (output_filename_of name) in
  name <> [] -> message <> [] -> len message <= MAX_MESSAGE_CHARS ->
  merged_card name message fs = (Return w, fs) ->
  fs_converter output_path = None ->
  byte_length output_path < FS.PATH_MAX ->
  FS.stat fs CARDS_FOLDER = FS.Error FS.ENOENT ->
  index req fs
  = (render_index (Some (TemplateNotFound TEMPLATE_PATH)) None, fs).
Proof.
  intros Hpost name message output_path Hn Hm Hlen Hmerged Hconv Hpath Hstat.
  rewrite (index_accepts req fs Hpost Hn Hm Hlen).
  fold name message output_path.
  unfold write_card, bind, open_. rewrite Hmerged, Hconv.
  unfold output_path in *. rewrite output_path_eq in *.
  rewrite open_wb_card_eq by apply output_filename_nonsep.
  apply Z.leb_gt in Hpath. rewrite Hpath.
  revert Hstat. unfold FS.stat.
  destruct (FS.resolve fs CARDS_FOLDER) as [d|errno]; [|by intros [= ->]].
  by destruct (FS.node_at fs d) as [[|]|].
Qed.

(** X14: the card an accepted submission has written can be deleted by
    its name: [delete_card] then removes it, and the store is the one from
    before the submission without a file of that name. *)
Theorem written_card_can_be_deleted (req : request) (fs fs' : FS.t) :
  method req = POST ->
  index req fs = (redirect (py "index"), fs') ->
  let filename := output_filename_of (strip (form_get req (py "name") [])) in
  let k := FS.cwd fs ++ [py "static"; py "cards"; filename] in
  let fs'' := FS.mk (delete k (FS.nodes fs)) (FS.cwd fs) in
  delete_card filename fs' = (redirect (py "admin"), fs'')
  /\ FS.exists_ fs'' (PosixPath.join CARDS_FOLDER filename) = false.
Proof.
  intros Hpost Hindex filename k fs''.
  destruct (index_post_outcome req fs Hpost)
    as [[_ [error E]]|(_ & _ & _ & Hd & Hdir & Hshort & w & data & failure & _ & _ & E)].
  { by rewrite Hindex in E. }
  rewrite Hindex in E. destruct failure as [e|]; [done|].
  apply (f_equal snd) in E. cbn [snd] in E. fold filename in E.
  pose proof (output_filename_nonsep (strip (form_get req (py "name") [])))
    as Hname. fold filename in Hname.
  destruct (output_filename_not_dots (strip (form_get req (py "name") [])))
    as [Hdot Hdd]. fold filename in Hdot, Hdd.
  assert (FS.stat fs' (CARDS_FOLDER ++ PosixPath.sep :: filename)
          = FS.Ok (FS.File data)) as Hstat.
  { rewrite E. exact (stat_after_write fs filename data Hname Hdot Hdd Hshort Hd Hdir). }
  assert (k = (FS.cwd fs ++ [py "static"; py "cards"]) ++ [filename]) as Hk
    by (unfold k; by rewrite <- app_assoc).
  split.
  - rewrite (delete_card_file fs' filename Hname).
    + rewrite E. cbn [FS.cwd FS.nodes]. unfold fs''.
      by rewrite Hk, delete_insert_eq.
    + rewrite (proj1 (dirname_card filename Hname)). unfold FS.isfile.
      by rewrite Hstat.
  - rewrite (proj1 (dirname_card filename Hname)).
    destruct (resolve_cards_frame fs (delete k (FS.nodes fs)) k) as [Hd' Hdir'].
    { rewrite Hk, !length_app. simpl. lia. }
    { intros j Hj. by apply lookup_delete_ne. }
    rewrite Hd in Hd'. rewrite Hdir in Hdir'.
    unfold FS.exists_, fs''.
    rewrite (stat_card _ filename _ Hname Hdot Hdd Hshort Hd' Hdir').
    cbn [FS.nodes]. by rewrite <- Hk, lookup_delete_eq.
Qed.

(** X15: [index] catches every exception of a POST; a request with another
    method ends in an uncaught exception exactly when the managed
    directory cannot be listed, and the exception is the [OSError] of
    [os.listdir]. *)
Theorem index_uncaught_exception (req : request) (fs : FS.t) (e : exn) :
  fst (index req fs) = server_error e
  <-> method req <> POST
      /\ exists errno,
           e = OSError errno CARDS_FOLDER
           /\ FS.listdir fs CARDS_FOLDER = FS.Error errno.
Proof.
  destruct (method_post_cases (method req)) as [Hpost|Hother].
  - split; [|by intros [? _]].
    destruct (index_post_outcome req fs Hpost)
      as [[_ [error ->]]|(_ & _ & _ & _ & _ & _ & w & data & failure & _ & _ & ->)];
      [done|]. by destruct failure.
  - unfold index, list_cards.
    destruct (method req); [| |done];
      (destruct (FS.listdir fs CARDS_FOLDER) as [names|errno]; cbn [fst]; split;
       [done|by intros (_ & ? & _ & ?)
        |intros [= <-]; eauto|intros (_ & ? & -> & [= <-]); done]).
Qed.

End SubmissionTheorems.

(** ** Who gets past the admin login *)

Section LoginProps.
Context `{PasswordHashing}.

(** The plain password that start-up leaves in memory. *)
Lemma load_settings_password (getenv : pystr -> option pystr) (p : pystr) :
  ADMIN_PASSWORD (load_settings getenv) = Some p
  <-> getenv (py "ADMIN_PASSWORD") = Some p
      /\ (truthy_opt (getenv (py "ADMIN_PASSWORD_HASH")) = true \/ p = []).
Proof.
  unfold load_settings.
  destruct (truthy_opt (getenv (py "ADMIN_PASSWORD_HASH"))) eqn:Hhash;
    cbn [ADMIN_PASSWORD].
  { split; [intros E; split; auto|by intros [E _]]. }
  destruct (getenv (py "ADMIN_PASSWORD")) as [plain|] eqn:Hplain;
    cbn [ADMIN_PASSWORD]; [|split; [done|by intros [E _]]].
  destruct (truthy plain) eqn:Ht.
  - apply truthy_true in Ht.
    destruct (startswith plain (py "pbkdf2:sha256:")); cbn [ADMIN_PASSWORD];
      (split; [done|]); intros [Hp [?|Hnil]]; [done| |done|];
      congruence.
  - apply truthy_false in Ht. subst plain. cbn [ADMIN_PASSWORD].
    split; [|by intros [E _]]. intros E. split; [done|]. right. congruence.
Qed.

(** X9: after start-up, [admin] shows the cards in one case only: a POST
    whose password equals the [ADMIN_PASSWORD] of the environment, where
    moreover [ADMIN_PASSWORD_HASH] is set or that password is empty, and
    the listing succeeds.  So a configuration with an empty
    [ADMIN_PASSWORD] and no hash lets the empty password in, and a
    configuration with a hash but no plain password lets nobody in.  In
    every other answer of [admin] no card list is shown. *)
Theorem admin_login_cases
    (getenv : pystr -> option pystr) (req : request) (fs : FS.t) :
  let password := form_get req (py "password") [] in
  ((exists cards,
       admin (load_settings getenv) req fs = render_admin None (Some cards) true)
   <-> method req = POST
       /\ getenv (py "ADMIN_PASSWORD") = Some password
       /\ (truthy_opt (getenv (py "ADMIN_PASSWORD_HASH")) = true
           \/ password = [])
       /\ exists cards, list_cards fs = Return cards)
  /\ (forall error cards authorized,
        admin (load_settings getenv) req fs
        = render_admin error (Some cards) authorized ->
        error = None /\ authorized = true).
Proof.
  intros password. unfold admin. fold password.
  pose proof (load_settings_password getenv password) as Hpw.
  destruct (method req);
    [split; [split; [by intros [? ?]|by intros [? _]]|done]..|].
  case_bool_decide as Hdec; cbn [negb].
  - symmetry in Hdec. apply Hpw in Hdec as [Henv Hhash].
    destruct (list_cards fs) as [cards|e].
    + split.
      * split; [|intros _; by eexists]. intros _. split_and!; [done..|by eexists].
      * by intros error cards' authorized [= <- _ <-].
    + split; [|done].
      split; [by intros [? ?]|by intros (_ & _ & _ & [? ?])].
  - split; [|done]. split; [by intros [? ?]|].
    intros (_ & Henv & Hhash & _). destruct Hdec. symmetry. by apply Hpw.
Qed.

End LoginProps.

(** ** The further properties at sample inputs *)

Lemma sample_widths_nonneg (f : font) (c : char) : 0 <= sample_widths f c.
Proof. unfold sample_widths. destruct (c =? SPACE)%N; lia. Qed.

Lemma sample_segment_mono (a b c : pystr) :
  (stringWidth (FontMetrics := sample_metrics) b Helvetica 12
   <= stringWidth (FontMetrics := sample_metrics) (a ++ b ++ c) Helvetica 12)%Q.
Proof.
  apply afm_segment_mono; [lia|]. intros x. apply sample_widths_nonneg.
Qed.

Lemma wrap_breaks_only_when_needed_witness :
  exists w rest,
    split (py "with you, and the office will not be the same.") = w :: rest
    /\ (inject_Z max_width
        <= stringWidth (FontMetrics := sample_metrics)
             (py "So long, and thanks for all the fish. It has been a pleasure to work"
              ++ py " " ++ w ++ py " ") Helvetica 12)%Q.
Proof.
  apply (wrap_breaks_only_when_needed (H := sample_metrics)
           sample_paragraph [] _ _ []).
  vm_compute. reflexivity.
Defined.

Example wrap_wide_demo :
  wrap_message (H := sample_metrics) sample_wide_message
  = [py "Goodbye"; replicate 70 (N_of_ascii "x"); py "and thanks"].
Proof. vm_compute. reflexivity. Qed.

Lemma wide_word_alone_witness :
  Forall
    (fun line =>
       forall w, w ∈ split line ->
         (inject_Z max_width
          <= stringWidth (FontMetrics := sample_metrics) (w ++ py " ")
               Helvetica 12)%Q ->
         line = w)
    (wrap_message (H := sample_metrics) sample_wide_message).
Proof.
  apply (wide_word_alone (H := sample_metrics)). apply sample_segment_mono.
Defined.

Lemma fitting_paragraph_one_line_witness :
  wrap_paragraph (H := sample_metrics) [] (py "  Keep   in touch! ")
  = [join_space (split (py "  Keep   in touch! "))].
Proof.
  apply (fitting_paragraph_one_line (H := sample_metrics)).
  - apply sample_segment_mono.
  - vm_compute. discriminate.
  - apply Qltb_lt. vm_compute. reflexivity.
Defined.

Lemma overlay_of_accepted_message_witness :
  let message := strip sample_message in
  let shown := slice_to max_lines (wrap_message (H := sample_metrics) message) in
  let name_y := message_top - (len_list shown - 1) * line_height - 25 in
  (1 <= length shown <= 26)%nat /\ 225 <= name_y <= 675.
Proof.
  intros message shown name_y.
  destruct (overlay_of_accepted_message (H := sample_metrics) (H0 := sample_float)
              (inject_Z 842, inject_Z 595) (py "Ada") sample_message)
    as (Hlen & Hy & _).
  - vm_compute. discriminate.
  - exact (conj Hlen Hy).
Defined.

Lemma cards_listing_witness :
  exists d,
    FS.resolve sample_fs CARDS_FOLDER = FS.Ok d
    /\ FS.node_at sample_fs d = Some FS.Dir
    /\ StronglySorted PyStr.le [py "Bob_farewell_card.pdf"]
    /\ NoDup [py "Bob_farewell_card.pdf"]
    /\ forall f, f ∈ [py "Bob_farewell_card.pdf"]
         <-> endswith f (py ".pdf") = true
             /\ is_Some (FS.nodes sample_fs !! (d ++ [f])).
Proof.
  apply (cards_listing sample_fs [py "Bob_farewell_card.pdf"]).
  vm_compute. reflexivity.
Defined.

Lemma delete_card_unlists_witness :
  exists cards',
    list_cards (snd (delete_card (py "Bob_farewell_card.pdf") sample_fs))
    = Return cards'
    /\ forall f, f ∈ cards'
         <-> f ∈ [py "Bob_farewell_card.pdf"] /\ f <> py "Bob_farewell_card.pdf".
Proof.
  apply (delete_card_unlists (py "Bob_farewell_card.pdf") sample_fs
           [py "Bob_farewell_card.pdf"]).
  - apply (bool_decide_unpack _). vm_compute. exact I.
  - vm_compute. reflexivity.
  - vm_compute. reflexivity.
Defined.

Lemma accepted_card_content_witness :
  let req := sample_post "Bob" "So long!" in
  let fs' := snd (index (H := sample_metrics) (H0 := sample_pdf) (H1 := sample_float)
      req sample_fs) in
  exists w data,
    merged_card (H := sample_metrics) (H0 := sample_pdf) (H1 := sample_float)
      (strip (form_get req (py "name") []))
      (strip (form_get req (py "message") [])) sample_fs
    = (Return w, sample_fs)
    /\ writer_write (PdfLibrary := sample_pdf) w = (data, None)
    /\ FS.read fs'
         (PosixPath.join CARDS_FOLDER
            (output_filename_of (strip (form_get req (py "name") []))))
       = FS.Ok data.
Proof.
  intros req fs'.
  apply (accepted_card_content (H := sample_metrics)
             (H0 := sample_pdf) (H1 := sample_float)
           req sample_fs fs').
  - reflexivity.
  - reflexivity.
Defined.

Lemma written_card_can_be_deleted_witness :
  let req := sample_post "Ada Lovelace" "So long!" in
  let fs' := snd (index (H := sample_metrics) (H0 := sample_pdf) (H1 := sample_float)
      req sample_fs) in
  let filename := output_filename_of (strip (form_get req (py "name") [])) in
  let k := FS.cwd sample_fs ++ [py "static"; py "cards"; filename] in
  let fs'' := FS.mk (delete k (FS.nodes sample_fs)) (FS.cwd sample_fs) in
  delete_card filename fs' = (redirect (py "admin"), fs'')
  /\ FS.exists_ fs'' (PosixPath.join CARDS_FOLDER filename) = false.
Proof.
  intros req fs'.
  apply (written_card_can_be_deleted (H := sample_metrics)
             (H0 := sample_pdf) (H1 := sample_float)
           req sample_fs fs').
  - reflexivity.
  - reflexivity.
Defined.

Lemma missing_cards_folder_reported_as_template_witness :
  index (H := sample_metrics) (H0 := sample_pdf) (H1 := sample_float)
    (sample_post "Ada Lovelace" "So long!") sample_fs_no_cards
  = (render_index (Some (TemplateNotFound TEMPLATE_PATH)) None,
     sample_fs_no_cards).
Proof.
  eapply (missing_cards_folder_reported_as_template
            (H := sample_metrics) (H0 := sample_pdf) (H1 := sample_float)
            (sample_post "Ada Lovelace" "So long!") sample_fs_no_cards).
  - reflexivity.
  - vm_compute. discriminate.
  - vm_compute. discriminate.
  - vm_compute. discriminate.
  - reflexivity.
  - vm_compute. reflexivity.
  - vm_compute. reflexivity.
  - vm_compute. reflexivity.
Defined.

Lemma interrupted_write_leaves_file_witness :
  let req := sample_post "Bob" "So long!" in
  fst (index (H := sample_metrics) (H0 := sample_pdf_failing) (H1 := sample_float)
      req sample_fs)
  = render_index (Some (GeneratingPDF (LibraryError false (py "disk full")))) None
  /\ FS.read
       (snd (index (H := sample_metrics) (H0 := sample_pdf_failing) (H1 := sample_float)
           req sample_fs))
       (PosixPath.join CARDS_FOLDER
          (output_filename_of (strip (form_get req (py "name") []))))
     = FS.Ok (py "%PDF").
Proof.
  intros req.
  eapply (interrupted_write_leaves_file
            (H := sample_metrics) (H0 := sample_pdf_failing) (H1 := sample_float)
                req sample_fs
            _ _ _ (py "%PDF") (LibraryError false (py "disk full"))).
  - reflexivity.
  - vm_compute. discriminate.
  - vm_compute. discriminate.
  - vm_compute. discriminate.
  - reflexivity.
  - reflexivity.
  - reflexivity.
Defined.

(** The card of Bob before and after the interrupted write. *)
Example interrupted_write_demo :
  FS.read sample_fs (py "static/cards/Bob_farewell_card.pdf")
  = FS.Ok (py "%PDF-bob")
  /\ FS.read
       (snd (index (H := sample_metrics) (H0 := sample_pdf_failing) (H1 := sample_float)
               (sample_post "Bob" "So long!") sample_fs))
       (py "static/cards/Bob_farewell_card.pdf")
     = FS.Ok (py "%PDF").
Proof. split; reflexivity. Qed.

(** An empty [ADMIN_PASSWORD] and no hash: the empty password gets in. *)
Example empty_password_login :
  let getenv k :=
    if PyStr.eqb k (py "ADMIN_PASSWORD") then Some [] else None in
  admin (load_settings (H := sample_hashing) getenv)
    (mk_request POST []) sample_fs
  = render_admin None (Some [py "Bob_farewell_card.pdf"]) true.
Proof. vm_compute. reflexivity. Qed.

(** ** The drawn text stays left of [message_right] *)

Section InsideBox.
Context `{FontMetrics} `{FloatArith}.

(** The message lines of the overlay: all drawing operations but the last. *)
Lemma draw_overlay_lines (page_size : Q * Q) (name message : pystr) :
  exists signature,
    drawn (draw_overlay page_size name message)
    = imap (fun i line =>
              mk_draw (inject_Z message_left)
                (inject_Z (message_top - Z.of_nat i * line_height))
                line Helvetica 12 (py "#2C3E50"))
        (slice_to max_lines (wrap_message message))
      ++ [signature]
    /\ op_font signature = Helvetica_Bold
    /\ op_text signature = py "- " ++ name.
Proof.
  unfold draw_overlay. change 0 with (Z.of_nat 0).
  rewrite draw_lines_within.
  2: { unfold slice_to. rewrite length_take. lia. }
  eexists. split; [reflexivity|]. by cbn [op_font op_text].
Qed.

Hypothesis space_widens : forall text,
  (stringWidth text Helvetica 12
   <= stringWidth (text ++ py " ") Helvetica 12)%Q.

(** X16: when no word of the message, with its trailing space, is as wide
    as the box, the overlay is the first [max_lines] wrapped lines
    followed by the signature, and every one of these message lines
    begins at [message_left], is set in Helvetica 12 and ends left of
    [message_right]. *)
Theorem drawn_lines_inside_box (page_size : Q * Q) (name message : pystr) :
  (forall paragraph word,
      paragraph ∈ splitlines message -> word ∈ split paragraph ->
      (stringWidth (word ++ py " ") Helvetica 12 < inject_Z max_width)%Q) ->
  exists line_ops signature,
    drawn (draw_overlay page_size name message) = line_ops ++ [signature]
    /\ map op_text line_ops = slice_to max_lines (wrap_message message)
    /\ Forall
         (fun op =>
            op_x op = inject_Z message_left
            /\ op_font op = Helvetica /\ op_size op = 12
            /\ (op_x op + stringWidth (op_text op) Helvetica 12
                < inject_Z message_right)%Q)
         line_ops
    /\ op_font signature = Helvetica_Bold
    /\ op_text signature = py "- " ++ name.
Proof.
  intros Hwords.
  destruct (draw_overlay_lines page_size name message)
    as (signature & Hdrawn & Hfont & Htext).
  eexists _, signature. split; [exact Hdrawn|]. split_and!; [| |done|done].
  { generalize (slice_to max_lines (wrap_message message)).
    intros l. change (map op_text) with (fmap (M := list) op_text).
    rewrite fmap_imap, (imap_ext _ (fun _ => id)) by done.
    change (fun _ : nat => @id pystr) with (@const (pystr -> pystr) nat id).
    by rewrite imap_const, list_fmap_id. }
  assert (Forall
            (fun line =>
               (stringWidth line Helvetica 12 < inject_Z max_width)%Q)
            (wrap_message message)) as Hnarrow.
  { unfold wrap_message.
    assert (forall paragraphs lines,
               paragraphs ⊆ splitlines message ->
               Forall (fun line =>
                         (stringWidth line Helvetica 12 < inject_Z max_width)%Q)
                 lines ->
               Forall (fun line =>
                         (stringWidth line Helvetica 12 < inject_Z max_width)%Q)
                 (fold_left wrap_paragraph paragraphs lines)) as Hloop.
    { induction paragraphs as [|p ps IH]; intros lines Hsub Hlines; [done|].
      cbn [fold_left]. apply IH; [set_solver|].
      apply wrap_paragraph_narrow; [done| |done].
      apply Forall_forall. intros w Hw. apply (Hwords p); [set_solver|done]. }
    apply Hloop; [done|constructor]. }
  apply Forall_forall. intros op (i & line & -> & Hline)%elem_of_lookup_imap.
  cbn [op_x op_font op_size op_text]. split_and!; [done..|].
  apply list_elem_of_lookup_2, elem_of_take in Hline as (j & Hj & _).
  eapply Forall_forall in Hnarrow; [|by eapply list_elem_of_lookup_2].
  unfold max_width, message_right, message_left in *.
  apply (Qplus_lt_r _ _ (inject_Z 230)) in Hnarrow.
  eapply Qlt_le_trans; [exact Hnarrow|]. by vm_compute.
Qed.

End InsideBox.

(** ** The listing after an accepted submission *)

Section ListingAfterSubmission.
Context `{FontMetrics} `{PdfLibrary} `{FloatArith}.

(** X6: an accepted submission adds the name of its card to the listing
    and changes nothing else in it: the cards listed before are still
    listed, and no other name appears. *)
Theorem accepted_card_joins_listing (req : request) (fs fs' : FS.t) :
  method req = POST ->
  index req fs = (redirect (py "index"), fs') ->
  exists cards cards',
    list_cards fs = Return cards
    /\ list_cards fs' = Return cards'
    /\ forall f,
         f ∈ cards'
         <-> f ∈ cards
             \/ f = output_filename_of (strip (form_get req (py "name") [])).
Proof.
  intros Hpost Hindex.
  destruct (index_post_outcome req fs Hpost)
    as [[_ [error E]]|(_ & _ & _ & Hd & Hdir & Hshort & w & data & failure & _ & _ & E)].
  { by rewrite Hindex in E. }
  rewrite Hindex in E. destruct failure as [e|]; [done|].
  apply (f_equal snd) in E. cbn [snd] in E.
  set (filename := output_filename_of (strip (form_get req (py "name") []))) in *.
  set (d := FS.cwd fs ++ [py "static"; py "cards"]) in *.
  destruct (resolve_cards_frame fs (<[d ++ [filename] := FS.File data]> (FS.nodes fs))
              (d ++ [filename])) as [Hd' Hdir'].
  { unfold d. rewrite !length_app. simpl. lia. }
  { intros j Hj. by apply lookup_insert_ne. }
  fold d in Hdir'. rewrite Hd in Hd'. rewrite Hdir in Hdir'. rewrite <- E in Hd', Hdir'.
  destruct (list_cards_exists _ _ Hd Hdir) as [cards Hcards].
  destruct (list_cards_exists _ _ Hd' Hdir') as [cards' Hcards'].
  exists cards, cards'. split_and!; [done..|]. intros f.
  apply list_cards_elem in Hcards as (d0 & Hd0 & _ & _ & _ & Helem).
  apply list_cards_elem in Hcards' as (d1 & Hd1 & _ & _ & _ & Helem').
  rewrite Hd in Hd0. rewrite Hd' in Hd1.
  injection Hd0 as <-. injection Hd1 as <-.
  rewrite Helem, Helem', E. cbn [FS.nodes].
  destruct (decide (f = filename)) as [->|Hne].
  - rewrite lookup_insert_eq. split; [by right|]. intros _.
    split; [apply output_filename_pdf|by eexists].
  - rewrite lookup_insert_ne; [tauto|]. by intros ?%app_inv_head; simplify_eq.
Qed.

End ListingAfterSubmission.

(** ** The last two properties at sample inputs *)

Lemma drawn_lines_inside_box_witness :
  exists line_ops signature,
    drawn (draw_overlay (H := sample_metrics) (H0 := sample_float)
             (inject_Z 842, inject_Z 595) (py "Ada") sample_message)
    = line_ops ++ [signature]
    /\ map op_text line_ops
       = slice_to max_lines (wrap_message (H := sample_metrics) sample_message)
    /\ Forall
         (fun op =>
            op_x op = inject_Z message_left
            /\ op_font op = Helvetica /\ op_size op = 12
            /\ (op_x op
                + stringWidth (FontMetrics := sample_metrics)
                    (op_text op) Helvetica 12
                < inject_Z message_right)%Q)
         line_ops
    /\ op_font signature = Helvetica_Bold
    /\ op_text signature = py "- " ++ py "Ada".
Proof.
  apply (drawn_lines_inside_box (H := sample_metrics) (H0 := sample_float)).
  - intros text. apply afm_space_widens; [lia|]. vm_compute. discriminate.
  - assert (forallb
              (fun paragraph =>
                 forallb
                   (fun word =>
                      Qltb (stringWidth (FontMetrics := sample_metrics)
                              (word ++ py " ") Helvetica 12)
                        (inject_Z max_width))
                   (split paragraph))
              (splitlines sample_message) = true) as Hwords
      by (vm_compute; reflexivity).
    intros paragraph word Hp Hw.
    apply Qltb_lt.
    apply list_elem_of_In in Hp, Hw.
    exact (proj1 (forallb_forall _ _)
             (proj1 (forallb_forall _ _) Hwords paragraph Hp) word Hw).
Defined.

Lemma accepted_card_joins_listing_witness :
  let req := sample_post "Ada Lovelace" "So long!" in
  let fs' := snd (index (H := sample_metrics) (H0 := sample_pdf) (H1 := sample_float)
      req sample_fs) in
  exists cards cards',
    list_cards sample_fs = Return cards
    /\ list_cards fs' = Return cards'
    /\ forall f,
         f ∈ cards'
         <-> f ∈ cards
             \/ f = output_filename_of (strip (form_get req (py "name") [])).
Proof.
  intros req fs'.
  apply (accepted_card_joins_listing (H := sample_metrics)
             (H0 := sample_pdf) (H1 := sample_float)
           req sample_fs fs').
  - reflexivity.
  - reflexivity.
Defined.

(** Ada's card joins Bob's in the listing. *)
Example listing_after_submission :
  list_cards
    (snd (index (H := sample_metrics) (H0 := sample_pdf) (H1 := sample_float)
            (sample_post "Ada Lovelace" "So long!") sample_fs))
  = Return [py "Ada_Lovelace_farewell_card.pdf"; py "Bob_farewell_card.pdf"].
Proof. vm_compute. reflexivity. Qed.
